(** * Queue ticket service: the ticket-counter engine

    A shallow embedding of the counter engine of the queue ticket service
    (QueueService, QueueRepository, the storage adapters and the Ticket
    model) together with the properties of its specification.

    Conventions of the embedding:
    - a JavaScript value that the engine handles is either [null] or an
      integer-valued number ([Value]); the renderings [toString] and
      [parseInt] are those of the safe integers (magnitude below 2^53),
      and a statement that depends on them for a number that is not known
      to lie between 0 and 9999 says so with [safeInteger];
    - an [async] method is a function from the state of the storage to an
      outcome (a returned value or a thrown error) and the new state;
    - a [throw] carries the message of the [Error];
    - [console.error] and the logger calls are not modelled. *)

From stdpp Require Import gmap strings list fin_maps.
From Stdlib Require Import ZArith Ascii DecimalString.

Open Scope Z_scope.

(** ** JavaScript primitives *)

Module Js.

(** A value held in a variable of the engine: [null] or a number. *)
Inductive Value : Type :=
| Null
| Num (n : Z).

(** [typeof v === 'number'] ([typeof null] is ['object']). *)
Definition isNumber (v : Value) : bool :=
  match v with Num _ => true | Null => false end.

(** [Number.isInteger(v)]: every number of the embedding is
    integer-valued, [null] is not a number. *)
Definition isInteger (v : Value) : bool :=
  match v with Num _ => true | Null => false end.

(** ToNumber, the coercion applied by [+], [<] and [>]: [null] is 0. *)
Definition toNumber (v : Value) : Z :=
  match v with Num n => n | Null => 0 end.

(** [v + 1] *)
Definition plus1 (v : Value) : Z := toNumber v + 1.

(** [a % b]: the remainder takes the sign of the dividend. *)
Definition remainder (a b : Z) : Z := Z.rem a b.

(** [!s] is false exactly for the non-empty strings. *)
Definition truthy (s : string) : bool :=
  match s with EmptyString => false | String _ _ => true end.

(** [n.toString()] for a safe integer: a minus sign for the negative
    ones, then the decimal digits. (From 2^53 on a number prints the
    shortest digits that identify it, and from 1e21 on in exponent form;
    the embedding does not cover these.) *)
Definition toString (n : Z) : string :=
  NilZero.string_of_int (Z.to_int n).

(** [parseInt(n, 10)] of a safe integer reads its decimal rendering
    back, which gives the number again. (From 1e21 on the rendering is in
    exponent form and only its leading digits are read; the embedding
    does not cover these.) *)
Definition parseInt (n : Z) : Z := n.

(** [`${v}`] inside a template literal. *)
Definition template (v : Value) : string :=
  match v with Num n => toString n | Null => "null" end.

Fixpoint repeat (c : Ascii.ascii) (k : nat) : string :=
  match k with
  | O => EmptyString
  | S k' => String c (repeat c k')
  end.

(** [s.padStart(targetLength, c)] for a one-character filler. *)
Definition padStart (targetLength : nat) (c : Ascii.ascii) (s : string) : string :=
  repeat c (targetLength - String.length s) +:+ s.

End Js.

Import Js.

(** ** Outcomes and asynchronous methods *)

Inductive Result (A : Type) : Type :=
| Ok (a : A)
| Throw (message : string).

Arguments Ok {A} a.
Arguments Throw {A} message.

(** An asynchronous method over a store of type [S]. *)
Definition Async (S A : Type) : Type := S → Result A * S.

Definition resolve {S A} (a : A) : Async S A := λ s, (Ok a, s).

Definition reject {S A} (message : string) : Async S A :=
  λ s, (Throw message, s).

(** [const x = await m; k x] *)
Definition await {S A B} (m : Async S A) (k : A → Async S B) : Async S B :=
  λ s, match m s with
       | (Ok a, s') => k a s'
       | (Throw e, s') => (Throw e, s')
       end.

(** [try { m } catch (error) { handler error }] *)
Definition tryCatch {S A} (m : Async S A) (handler : string → Async S A)
  : Async S A :=
  λ s, match m s with
       | (Ok a, s') => (Ok a, s')
       | (Throw e, s') => handler e s'
       end.

(** A synchronous call that may throw, inside an asynchronous method. *)
Definition call {S A} (r : Result A) : Async S A := λ s, (r, s).

Notation "'let!' x ':=' m 'in' k" := (await m (λ x, k))
  (at level 10, x name, m at level 100, k at level 200,
   format "'[v' 'let!'  x  ':='  m  'in' '/' k ']'").

(** ** Storage adapters *)

(** The capability set of a storage adapter (StorageAdapter.js): [get]
    answers the stored number or [null]. *)
Class StorageAdapter (S : Type) : Type := {
  get : string → Async S Value;
  set : string → Z → Async S bool;
  delete : string → Async S bool
}.

Module InMemoryStorageAdapter.

(** [this.storage], a [Map] from keys to the numbers the engine stored. *)
Abbreviation Storage := (gmap string Z).

Definition get (key : string) : Async Storage Value :=
  λ storage,
    (Ok (match storage !! key with Some v => Num v | None => Null end),
     storage).

Definition set (key : string) (value : Z) : Async Storage bool :=
  λ storage, (Ok true, <[key := value]> storage).

Definition delete (key : string) : Async Storage bool :=
  λ storage,
    (Ok (bool_decide (is_Some (storage !! key))), base.delete key storage).

Definition clear : Async Storage bool := λ _, (Ok true, ∅).

End InMemoryStorageAdapter.

Abbreviation Storage := InMemoryStorageAdapter.Storage.

#[export] Instance inMemory : StorageAdapter Storage := {|
  get := InMemoryStorageAdapter.get;
  set := InMemoryStorageAdapter.set;
  delete := InMemoryStorageAdapter.delete
|}.

(** ** QueueRepository (src/repositories/QueueRepository.js) *)

Module QueueRepository.

Definition MAX_TICKET_NUMBER : Z := 9999.

(** [`queue:${queueId}:ticket`] *)
Definition _getQueueKey (queueId : string) : string :=
  "queue:" +:+ queueId +:+ ":ticket".

Section Methods.

Context {S : Type} (storageAdapter : StorageAdapter S).

(** The [catch] blocks of the repository log and rethrow the error they
    caught, so they leave the outcome as it is. *)
Definition getCurrentTicketNumber (queueId : string) : Async S Value :=
  if negb (truthy queueId) then reject "Queue ID is required"
  else
    let key := _getQueueKey queueId in
    let! value := get key in
    resolve (match value with
             | Num v => Num (parseInt v)
             | Null => Null
             end).

Definition incrementTicketNumber (queueId : string) : Async S Z :=
  if negb (truthy queueId) then reject "Queue ID is required"
  else
    let key := _getQueueKey queueId in
    let! currentNumber := getCurrentTicketNumber queueId in
    match currentNumber with
    | Null => reject ("Queue " +:+ queueId +:+ " does not exist")
    | Num currentNumber =>
        let nextNumber := currentNumber + 1 in
        let nextNumber :=
          if MAX_TICKET_NUMBER <? nextNumber then 0 else nextNumber in
        let! _ := set key nextNumber in
        resolve nextNumber
    end.

Definition resetTicketNumber (queueId : string) : Async S bool :=
  if negb (truthy queueId) then reject "Queue ID is required"
  else
    let key := _getQueueKey queueId in
    let! _ := set key 0 in
    resolve true.

Definition createQueue (queueId : string) : Async S bool :=
  if negb (truthy queueId) then reject "Queue ID is required"
  else
    let key := _getQueueKey queueId in
    let! current := getCurrentTicketNumber queueId in
    let exists_ := match current with Null => false | Num _ => true end in
    if exists_ then reject ("Queue " +:+ queueId +:+ " already exists")
    else
      let! _ := set key 0 in
      resolve true.

(** Modelled from the spec: [updateTicketNumber(queueId, value)], the
    method QueueService calls to persist a counter. The QueueRepository
    class declares no method of this name; the specification has the
    engine persist the new integer through the store's [set] under the
    queue's key, unconditionally. *)
Definition updateTicketNumber (queueId : string) (value : Z) : Async S bool :=
  let key := _getQueueKey queueId in
  let! _ := set key value in
  resolve true.

End Methods.

End QueueRepository.

(** ** QueueService *)

Module QueueService.

Definition MAX_TICKET_NUMBER : Z := 9999.

(** [number.toString().padStart(4, '0')]; reading [toString] off [null]
    raises a TypeError. *)
Definition formatTicketNumber (number : Value) : Result string :=
  match number with
  | Num n => Ok (padStart 4 "0"%char (toString n))
  | Null => Throw "Cannot read properties of null (reading 'toString')"
  end.

(** What [getQueueStatus] answers. *)
Record Status : Type := {
  queueId : string;
  currentTicket : string;
  ticketCount : Value
}.

Section Methods.

Context {S : Type} (storageAdapter : StorageAdapter S).

Definition getTicket (queueId : string) : Async S string :=
  tryCatch
    (let! currentNumber :=
       QueueRepository.getCurrentTicketNumber storageAdapter queueId in
     let currentNumber :=
       remainder (plus1 currentNumber) (MAX_TICKET_NUMBER + 1) in
     let! _ :=
       QueueRepository.updateTicketNumber storageAdapter queueId
         currentNumber in
     call (formatTicketNumber (Num currentNumber)))
    (λ _, reject ("Failed to get ticket for queue " +:+ queueId)).

Definition resetQueue (queueId : string) : Async S bool :=
  tryCatch
    (let! _ :=
       QueueRepository.updateTicketNumber storageAdapter queueId 0 in
     resolve true)
    (λ _, reject ("Failed to reset queue " +:+ queueId)).

Definition getQueueStatus (queueId : string) : Async S Status :=
  tryCatch
    (let! currentNumber :=
       QueueRepository.getCurrentTicketNumber storageAdapter queueId in
     let! formatted := call (formatTicketNumber currentNumber) in
     resolve {| queueId := queueId;
                currentTicket := formatted;
                ticketCount := currentNumber |})
    (λ _, reject ("Failed to get status for queue " +:+ queueId)).

End Methods.

End QueueService.

(** ** Ticket (models/Ticket.js) *)

Module Ticket.

Definition MAX_TICKET_NUMBER : Z := 9999.
Definition MIN_TICKET_NUMBER : Z := 0.

(** A ticket; [createdAt] is the instant of its [Date]. *)
Record t : Type := {
  queueId : string;
  number : Z;
  formattedNumber : string;
  createdAt : Z
}.

(** [typeof number !== 'number' || number < MIN_TICKET_NUMBER ||
    number > MAX_TICKET_NUMBER] *)
Definition rejected (number : Value) : bool :=
  negb (isNumber number)
  || (toNumber number <? MIN_TICKET_NUMBER)
  || (MAX_TICKET_NUMBER <? toNumber number).

Definition formatNumber (number : Value) : Result string :=
  if rejected number
  then Throw ("Invalid ticket number: " +:+ template number
              +:+ ". Must be between 0 and 9999")
  else Ok (padStart 4 "0"%char (toString (toNumber number))).

(** [new Ticket(queueId, number, createdAt)] *)
Definition new (queueId : string) (number : Value) (createdAt : Z)
  : Result t :=
  if negb (truthy queueId) then Throw "Queue ID is required"
  else if rejected number
  then Throw "Ticket number must be between 0 and 9999"
  else
    match formatNumber number with
    | Ok formatted =>
        Ok {| queueId := queueId;
              number := toNumber number;
              formattedNumber := formatted;
              createdAt := createdAt |}
    | Throw e => Throw e
    end.

Definition getNextNumber (currentNumber : Value) : Result Z :=
  if negb (isNumber currentNumber)
  then Throw "Current number must be a number"
  else if (toNumber currentNumber <? MIN_TICKET_NUMBER)
          || (MAX_TICKET_NUMBER <? toNumber currentNumber)
  then Throw "Current number must be between 0 and 9999"
  else Ok (if toNumber currentNumber =? MAX_TICKET_NUMBER
           then MIN_TICKET_NUMBER
           else toNumber currentNumber + 1).

(** [Ticket.createNext(queueId, currentNumber)], at the instant [now]
    that [new Date()] reads. *)
Definition createNext (queueId : string) (currentNumber : Value) (now : Z)
  : Result t :=
  match getNextNumber currentNumber with
  | Ok nextNumber => new queueId (Num nextNumber) now
  | Throw e => Throw e
  end.

Definition isValidNumber (number : Value) : bool :=
  isNumber number
  && isInteger number
  && (MIN_TICKET_NUMBER <=? toNumber number)
  && (toNumber number <=? MAX_TICKET_NUMBER).

End Ticket.

(** ** RedisStorageAdapter (src/adapters/RedisStorageAdapter.js) *)

Module RedisStorageAdapter.

(** The commands of the redis client that [increment] relies on, over the
    state [R] of the server. The client is a library outside the
    repository. *)
Record Client (R : Type) : Type := {
  client_connect : Async R unit;
  client_incr : string → Async R Z
}.

Arguments client_connect {R} _.
Arguments client_incr {R} _ _.

(** The adapter: its connection flag and the server it talks to. *)
Record Adapter (R : Type) : Type := {
  isConnected : bool;
  server : R
}.

Arguments isConnected {R} _.
Arguments server {R} _.

Section Methods.

Context {R : Type} (client : Client R).

(** [connect()]. An adapter of the embedding that is not connected has
    made no connection attempt yet ([connectionPromise] is [null]); the
    promise that an attempt memoises is not part of the state, so the
    state left by a failed connection does not stand for the adapter the
    code leaves (which answers later calls from the memoised rejection). *)
Definition connect : Async (Adapter R) unit :=
  λ a,
    if isConnected a then (Ok tt, a)
    else
      match client_connect client (server a) with
      | (Ok _, r) => (Ok tt, {| isConnected := true; server := r |})
      | (Throw e, r) => (Throw e, {| isConnected := false; server := r |})
      end.

Definition incr (key : string) : Async (Adapter R) Z :=
  λ a,
    match client_incr client key (server a) with
    | (o, r) => (o, {| isConnected := isConnected a; server := r |})
    end.

Definition increment (key : string) : Async (Adapter R) Z :=
  tryCatch
    (let! _ := connect in
     let! newValue := incr key in
     resolve newValue)
    (λ message,
       reject ("Failed to increment value in Redis: " +:+ message)).

End Methods.


End RedisStorageAdapter.

(** ** Interleaved calls on the in-memory adapter

    An [async] method runs without interruption until it has to wait at an
    [await]; other calls run in between. On the in-memory adapter the
    issue path touches the storage twice: [storage.get] runs as soon as the
    call starts, and [storage.set] runs when the call is resumed after
    [await getCurrentTicketNumber(...)]. A call is cut at that point. *)

Module Interleaving.

Inductive Call (A : Type) : Type :=
| Started (queueId : string)
| Suspended (queueId : string) (currentNumber : Value)
| Settled (outcome : Result A).

Arguments Started {A} queueId.
Arguments Suspended {A} queueId currentNumber.
Arguments Settled {A} outcome.

(** The two halves of a method: up to the end of its read, and from its
    resumption to its end. *)
Record Method (A : Type) : Type := {
  begin : string → Storage → Call A;
  resume : string → Value → Async Storage A
}.

Arguments begin {A} _ _ _.
Arguments resume {A} _ _ _.

(** [QueueRepository.incrementTicketNumber] *)
Definition incrementTicketNumber : Method Z := {|
  begin := λ queueId storage,
    if negb (truthy queueId) then Settled (Throw "Queue ID is required")
    else
      match QueueRepository.getCurrentTicketNumber inMemory queueId storage
      with
      | (Ok currentNumber, _) => Suspended queueId currentNumber
      | (Throw e, _) => Settled (Throw e)
      end;
  resume := λ queueId currentNumber,
    let key := QueueRepository._getQueueKey queueId in
    match currentNumber with
    | Null => reject ("Queue " +:+ queueId +:+ " does not exist")
    | Num currentNumber =>
        let nextNumber := currentNumber + 1 in
        let nextNumber :=
          if QueueRepository.MAX_TICKET_NUMBER <? nextNumber
          then 0 else nextNumber in
        let! _ := set key nextNumber in
        resolve nextNumber
    end
|}.

(** [QueueService.getTicket] *)
Definition getTicket : Method string := {|
  begin := λ queueId storage,
    match QueueRepository.getCurrentTicketNumber inMemory queueId storage
    with
    | (Ok currentNumber, _) => Suspended queueId currentNumber
    | (Throw _, _) =>
        Settled (Throw ("Failed to get ticket for queue " +:+ queueId))
    end;
  resume := λ queueId currentNumber,
    tryCatch
      (let currentNumber :=
         remainder (plus1 currentNumber)
           (QueueService.MAX_TICKET_NUMBER + 1) in
       let! _ :=
         QueueRepository.updateTicketNumber inMemory queueId currentNumber in
       call (QueueService.formatTicketNumber (Num currentNumber)))
      (λ _, reject ("Failed to get ticket for queue " +:+ queueId))
|}.

(** One call alone: both halves back to back. *)
Definition alone {A} (method : Method A) (queueId : string)
  : Async Storage A :=
  λ storage,
    match begin method queueId storage with
    | Started _ => (Throw "not started", storage)
    | Suspended queueId currentNumber =>
        resume method queueId currentNumber storage
    | Settled outcome => (outcome, storage)
    end.

Section Scheduler.

Context {A : Type} (method : Method A).

(** The call at position [i] runs until it waits or settles. *)
Definition step (i : nat) (cfg : list (Call A) * Storage)
  : list (Call A) * Storage :=
  let (calls, storage) := cfg in
  match calls !! i with
  | Some (Started queueId) =>
      (<[i := begin method queueId storage]> calls, storage)
  | Some (Suspended queueId currentNumber) =>
      let (outcome, storage') :=
        resume method queueId currentNumber storage in
      (<[i := Settled outcome]> calls, storage')
  | Some (Settled _) | None => cfg
  end.

Definition run (schedule : list nat) (cfg : list (Call A) * Storage)
  : list (Call A) * Storage :=
  foldl (λ cfg i, step i cfg) cfg schedule.

End Scheduler.

End Interleaving.

(** ** The engine as a transition system *)

Module Engine.

Inductive Operation : Type :=
| GetTicket (queueId : string)
| ResetQueue (queueId : string)
| IncrementTicketNumber (queueId : string)
| ResetTicketNumber (queueId : string)
| CreateQueue (queueId : string).

(** The storage an operation leaves behind. *)
Definition perform (op : Operation) (storage : Storage) : Storage :=
  match op with
  | GetTicket q => snd (QueueService.getTicket inMemory q storage)
  | ResetQueue q => snd (QueueService.resetQueue inMemory q storage)
  | IncrementTicketNumber q =>
      snd (QueueRepository.incrementTicketNumber inMemory q storage)
  | ResetTicketNumber q =>
      snd (QueueRepository.resetTicketNumber inMemory q storage)
  | CreateQueue q => snd (QueueRepository.createQueue inMemory q storage)
  end.

Definition performAll (ops : list Operation) (storage : Storage) : Storage :=
  foldl (λ storage op, perform op storage) storage ops.

(** Every stored counter lies in the closed range from 0 to 9999. *)
Definition inRange (storage : Storage) : Prop :=
  map_Forall (λ _ v, 0 ≤ v ≤ 9999) storage.

End Engine.

(** ** The four-digit rendering, in the words of the specification *)

Definition digit (d : Z) : ascii := ascii_of_nat (48 + Z.to_nat d).

(** The decimal digits of [n], thousands first: the rendering of a number
    between 0 and 9999 padded with zeros to width 4. *)
Definition fourDigits (n : Z) : string :=
  String (digit ((n / 1000) `mod` 10))
    (String (digit ((n / 100) `mod` 10))
       (String (digit ((n / 10) `mod` 10))
          (String (digit (n `mod` 10)) EmptyString))).

(** The specification's [formatNumber]: [n mod 10000], padded to width 4. *)
Definition formatNumber_spec (n : Z) : string := fourDigits (n `mod` 10000).

(** The check that [toString] followed by [padStart] gives the four-digit
    rendering of [k]. *)
Definition rendersAlike (k : nat) : bool :=
  String.eqb (padStart 4 "0"%char (toString (Z.of_nat k)))
             (fourDigits (Z.of_nat k)).

(** ** Abbreviations for the statements *)

(** What [storageAdapter.get] answers for the key of the queue [q]. *)
Definition stored (q : string) (s : Storage) : Value :=
  match s !! QueueRepository._getQueueKey q with
  | Some v => Num v
  | None => Null
  end.

(** The number [getTicket] computes from what it read. *)
Definition advanced (current : Value) : Z :=
  remainder (plus1 current) (QueueService.MAX_TICKET_NUMBER + 1).

(** A storage where the queue "checkout" has reached 9999. *)
Definition checkoutAt9999 : Storage :=
  {[QueueRepository._getQueueKey "checkout" := 9999]}.


(** ** TicketController (src/controllers/TicketController.js) *)

Module TicketController.

(** The methods of the injected [queueService] that the controller calls. *)
Record Service (S : Type) : Type := {
  service_getTicket : string → Async S string;
  service_resetQueue : string → Async S bool;
  service_getQueueStatus : string → Async S QueueService.Status
}.

Arguments service_getTicket {S} _ _.
Arguments service_resetQueue {S} _ _.
Arguments service_getQueueStatus {S} _ _.

(** The JSON bodies the handlers send. *)
Inductive Body : Type :=
| ErrorBody (error : string)
| TicketBody (ticket : string) (queueId : string)
| ResetBody (success : bool) (queueId : string)
| StatusBody (status : QueueService.Status).

(** What a handler does with the response: [res.status(code).json(body)],
    or [this.errorHandler.handleError(error, req, res)]. *)
Inductive Response : Type :=
| Json (code : Z) (body : Body)
| HandleError (message : string).

Section Handlers.

Context {S : Type} (queueService : Service S).

(** The handlers take [req.params.queueId]. *)
Definition getTicket (queueId : string) : S → Response * S :=
  λ s,
    if negb (truthy queueId)
    then (Json 400 (ErrorBody "Queue ID is required"), s)
    else
      match service_getTicket queueService queueId s with
      | (Ok ticket, s') => (Json 200 (TicketBody ticket queueId), s')
      | (Throw e, s') => (HandleError e, s')
      end.

Definition resetQueue (queueId : string) : S → Response * S :=
  λ s,
    if negb (truthy queueId)
    then (Json 400 (ErrorBody "Queue ID is required"), s)
    else
      match service_resetQueue queueService queueId s with
      | (Ok result, s') => (Json 200 (ResetBody result queueId), s')
      | (Throw e, s') => (HandleError e, s')
      end.

Definition getQueueStatus (queueId : string) : S → Response * S :=
  λ s,
    if negb (truthy queueId)
    then (Json 400 (ErrorBody "Queue ID is required"), s)
    else
      match service_getQueueStatus queueService queueId s with
      | (Ok status, s') => (Json 200 (StatusBody status), s')
      | (Throw e, s') => (HandleError e, s')
      end.

End Handlers.

(** [new QueueService(queueRepository)] over a storage adapter, as
    [bootstrap] wires it. *)
Definition wired {S : Type} (storageAdapter : StorageAdapter S) : Service S :=
  {| service_getTicket := QueueService.getTicket storageAdapter;
     service_resetQueue := QueueService.resetQueue storageAdapter;
     service_getQueueStatus := QueueService.getQueueStatus storageAdapter |}.

End TicketController.

(** ** Repeated calls *)

(** [k] calls of a method one after the other, with the values they
    resolved to; the first rejection ends the run. *)
Fixpoint times {S A : Type} (k : nat) (m : Async S A) : Async S (list A) :=
  match k with
  | O => resolve []
  | Datatypes.S k' =>
      let! first := m in
      let! rest := times k' m in
      resolve (first :: rest)
  end.

(** [Ticket.getNextNumber] applied [k] times, each time to the number the
    previous application returned. *)
Fixpoint nextNumberTimes (k : nat) (currentNumber : Z) : Result Z :=
  match k with
  | O => Ok currentNumber
  | Datatypes.S k' =>
      match Ticket.getNextNumber (Num currentNumber) with
      | Ok nextNumber => nextNumberTimes k' nextNumber
      | Throw e => Throw e
      end
  end.

(** The numbers [(n + 1) mod 10000], ..., [(n + k) mod 10000]. *)
Definition cycleFrom (n : Z) (k : nat) : list Z :=
  map (λ i : nat, (n + Z.of_nat i) `mod` 10000) (seq 1 k).

(** A client that connects and whose INCR fails with a fixed message. *)
Definition failingClient (R : Type) (incrError : string)
  : RedisStorageAdapter.Client R :=
  {| RedisStorageAdapter.client_connect := resolve tt;
     RedisStorageAdapter.client_incr := λ _, reject incrError |}.

(** A connected redis adapter whose server holds 9999 under the key of
    the queue "a". *)
Definition connectedAt9999 : RedisStorageAdapter.Adapter (gmap string Z) :=
  {| RedisStorageAdapter.isConnected := true;
     RedisStorageAdapter.server := {["queue:a:ticket" := 9999]} |}.

(** The safe integers, [Number.MIN_SAFE_INTEGER] to
    [Number.MAX_SAFE_INTEGER]: the numbers on which [toString], [parseInt]
    and [+ 1] are exact. *)
Definition safeInteger (n : Z) : Prop :=
  - 9007199254740991 ≤ n ≤ 9007199254740991.

(** The queue an operation of the engine is called for. *)
Definition queueOf (op : Engine.Operation) : string :=
  match op with
  | Engine.GetTicket q
  | Engine.ResetQueue q
  | Engine.IncrementTicketNumber q
  | Engine.ResetTicketNumber q
  | Engine.CreateQueue q => q
  end.

(** * Properties *)

(** ** Rendering *)

Section Rendering.

Lemma rendersAlike_upto_9999 :
  forallb rendersAlike (seq 0 (Z.to_nat 10000)) = true.
Proof. vm_compute. reflexivity. Qed.

(** On the range of the counter, [toString] followed by [padStart] is the
    four-digit rendering. *)
Lemma padStart_fourDigits (n : Z) :
  0 ≤ n ≤ 9999 → padStart 4 "0"%char (toString n) = fourDigits n.
Proof.
  intros Hn.
  pose proof rendersAlike_upto_9999 as Hall.
  rewrite forallb_forall in Hall.
  specialize (Hall (Z.to_nat n)).
  unfold rendersAlike in Hall.
  rewrite Z2Nat.id in Hall by lia.
  apply String.eqb_eq, Hall, in_seq.
  split; [lia | apply Z2Nat.inj_lt; lia].
Qed.

Lemma fourDigits_length (n : Z) : String.length (fourDigits n) = 4%nat.
Proof. reflexivity. Qed.

Lemma formatTicketNumber_inRange (n : Z) :
  0 ≤ n ≤ 9999 → QueueService.formatTicketNumber (Num n) = Ok (fourDigits n).
Proof. intros Hn. cbn. by rewrite padStart_fourDigits. Qed.

Lemma formatNumber_inRange (n : Z) :
  0 ≤ n ≤ 9999 → Ticket.formatNumber (Num n) = Ok (fourDigits n).
Proof.
  intros Hn. unfold Ticket.formatNumber, Ticket.rejected. cbn.
  unfold Ticket.MIN_TICKET_NUMBER, Ticket.MAX_TICKET_NUMBER.
  destruct (Z.ltb_spec n 0); [lia|].
  destruct (Z.ltb_spec 9999 n); [lia|].
  cbn. by rewrite padStart_fourDigits.
Qed.

End Rendering.

(** ** Storage keys *)

Section Keys.

Lemma list_ascii_of_string_append (a b : string) :
  String.list_ascii_of_string (a +:+ b)
  = String.list_ascii_of_string a ++ String.list_ascii_of_string b.
Proof.
  induction a as [|c a IH]; [done|].
  change (String c a +:+ b) with (String c (a +:+ b)).
  cbn. by rewrite IH.
Qed.

Lemma append_cancel_r (a b t : string) : a +:+ t = b +:+ t → a = b.
Proof.
  intros H. apply (f_equal String.list_ascii_of_string) in H.
  rewrite !list_ascii_of_string_append in H.
  apply app_inv_tail in H.
  rewrite <- (String.string_of_list_ascii_of_string a).
  rewrite <- (String.string_of_list_ascii_of_string b).
  by rewrite H.
Qed.

Lemma _getQueueKey_inj (a b : string) :
  QueueRepository._getQueueKey a = QueueRepository._getQueueKey b → a = b.
Proof.
  unfold QueueRepository._getQueueKey. intros H.
  apply String.app_inj in H. by apply append_cancel_r in H.
Qed.

Lemma truthy_nonempty (q : string) : q ≠ "" → truthy q = true.
Proof. by destruct q. Qed.

End Keys.

(** ** The methods on the in-memory adapter *)

Section InMemory.

Implicit Types (q : string) (s : Storage) (n : Z).

Lemma getCurrentTicketNumber_inMemory q s :
  q ≠ "" →
  QueueRepository.getCurrentTicketNumber inMemory q s = (Ok (stored q s), s).
Proof.
  intros Hq. unfold QueueRepository.getCurrentTicketNumber, stored.
  rewrite truthy_nonempty by done. cbn.
  unfold InMemoryStorageAdapter.get.
  by destruct (s !! QueueRepository._getQueueKey q).
Qed.

Lemma getCurrentTicketNumber_empty s :
  QueueRepository.getCurrentTicketNumber inMemory "" s
  = (Throw "Queue ID is required", s).
Proof. reflexivity. Qed.

Lemma getTicket_inMemory q s :
  q ≠ "" →
  QueueService.getTicket inMemory q s
  = (QueueService.formatTicketNumber (Num (advanced (stored q s))),
     <[QueueRepository._getQueueKey q := advanced (stored q s)]> s).
Proof.
  intros Hq. unfold QueueService.getTicket, tryCatch, await.
  rewrite getCurrentTicketNumber_inMemory by done. reflexivity.
Qed.

Lemma getTicket_empty s :
  QueueService.getTicket inMemory "" s
  = (Throw "Failed to get ticket for queue ", s).
Proof. reflexivity. Qed.

Lemma incrementTicketNumber_inMemory q s n :
  q ≠ "" → s !! QueueRepository._getQueueKey q = Some n →
  QueueRepository.incrementTicketNumber inMemory q s
  = (Ok (if 9999 <? n + 1 then 0 else n + 1),
     <[QueueRepository._getQueueKey q := if 9999 <? n + 1 then 0 else n + 1]>
       s).
Proof.
  intros Hq Hn. unfold QueueRepository.incrementTicketNumber, await.
  rewrite truthy_nonempty by done. cbn -[QueueRepository.getCurrentTicketNumber].
  rewrite getCurrentTicketNumber_inMemory by done.
  unfold stored. rewrite Hn. reflexivity.
Qed.

Lemma incrementTicketNumber_absent q s :
  q ≠ "" → s !! QueueRepository._getQueueKey q = None →
  QueueRepository.incrementTicketNumber inMemory q s
  = (Throw ("Queue " +:+ q +:+ " does not exist"), s).
Proof.
  intros Hq Hn. unfold QueueRepository.incrementTicketNumber, await.
  rewrite truthy_nonempty by done. cbn -[QueueRepository.getCurrentTicketNumber].
  rewrite getCurrentTicketNumber_inMemory by done.
  unfold stored. rewrite Hn. reflexivity.
Qed.

Lemma advanced_inRange n :
  0 ≤ n ≤ 9999 → advanced (Num n) = (n + 1) `mod` 10000.
Proof.
  intros Hn. unfold advanced, remainder, plus1. cbn.
  rewrite Z.rem_mod_nonneg by (unfold QueueService.MAX_TICKET_NUMBER; lia).
  reflexivity.
Qed.

Lemma wrapped_inRange n :
  0 ≤ n ≤ 9999 → (if 9999 <? n + 1 then 0 else n + 1) = (n + 1) `mod` 10000.
Proof.
  intros Hn. destruct (Z.ltb_spec 9999 (n + 1)).
  - assert (n = 9999) as -> by lia. reflexivity.
  - by rewrite Z.mod_small by lia.
Qed.

End InMemory.

(** ** What each operation leaves in the storage *)

Section Footprints.

Implicit Types (q : string) (s : Storage).

Lemma getTicket_storage q s :
  snd (QueueService.getTicket inMemory q s)
  = if truthy q
    then <[QueueRepository._getQueueKey q := advanced (stored q s)]> s
    else s.
Proof.
  destruct q as [|c q]; [reflexivity|].
  by rewrite getTicket_inMemory.
Qed.

Lemma resetQueue_inMemory q s :
  QueueService.resetQueue inMemory q s
  = (Ok true, <[QueueRepository._getQueueKey q := 0]> s).
Proof. reflexivity. Qed.

Lemma resetTicketNumber_inMemory q s :
  q ≠ "" →
  QueueRepository.resetTicketNumber inMemory q s
  = (Ok true, <[QueueRepository._getQueueKey q := 0]> s).
Proof.
  intros Hq. unfold QueueRepository.resetTicketNumber.
  by rewrite truthy_nonempty.
Qed.

Lemma incrementTicketNumber_storage q s :
  snd (QueueRepository.incrementTicketNumber inMemory q s)
  = match truthy q, s !! QueueRepository._getQueueKey q with
    | true, Some n =>
        <[QueueRepository._getQueueKey q :=
            if 9999 <? n + 1 then 0 else n + 1]> s
    | _, _ => s
    end.
Proof.
  destruct q as [|c q]; [reflexivity|]. cbn [truthy].
  destruct (s !! _) as [n|] eqn:Hn.
  - by erewrite incrementTicketNumber_inMemory.
  - by rewrite incrementTicketNumber_absent.
Qed.

Lemma resetTicketNumber_storage q s :
  snd (QueueRepository.resetTicketNumber inMemory q s)
  = if truthy q then <[QueueRepository._getQueueKey q := 0]> s else s.
Proof.
  destruct q as [|c q]; [reflexivity|].
  by rewrite resetTicketNumber_inMemory.
Qed.

Lemma createQueue_storage q s :
  snd (QueueRepository.createQueue inMemory q s)
  = match truthy q, s !! QueueRepository._getQueueKey q with
    | true, None => <[QueueRepository._getQueueKey q := 0]> s
    | _, _ => s
    end.
Proof.
  destruct q as [|c q]; [reflexivity|].
  unfold QueueRepository.createQueue, await. cbn [truthy negb].
  rewrite getCurrentTicketNumber_inMemory by done. unfold stored.
  by destruct (s !! _).
Qed.

Lemma advanced_bounds q s :
  Engine.inRange s → 0 ≤ advanced (stored q s) ≤ 9999.
Proof.
  intros Hs. unfold stored.
  destruct (s !! _) as [n|] eqn:Hn.
  - rewrite advanced_inRange by exact (Hs _ _ Hn).
    pose proof (Z.mod_pos_bound (n + 1) 10000). lia.
  - vm_compute. split; discriminate.
Qed.

Lemma perform_inRange (op : Engine.Operation) s :
  Engine.inRange s → Engine.inRange (Engine.perform op s).
Proof.
  intros Hs. destruct op as [q|q|q|q|q]; unfold Engine.perform.
  - rewrite getTicket_storage. destruct (truthy q); [|done].
    apply map_Forall_insert_2; [by apply advanced_bounds | done].
  - rewrite resetQueue_inMemory. by apply map_Forall_insert_2.
  - rewrite incrementTicketNumber_storage.
    destruct (truthy q); [|done].
    destruct (s !! _) as [n|] eqn:Hn; [|done].
    apply map_Forall_insert_2; [|done].
    pose proof (Hs _ _ Hn). cbn in *.
    destruct (Z.ltb_spec 9999 (n + 1)); lia.
  - rewrite resetTicketNumber_storage. destruct (truthy q); [|done].
    by apply map_Forall_insert_2.
  - rewrite createQueue_storage. destruct (truthy q); [|done].
    destruct (s !! _); [done|]. by apply map_Forall_insert_2.
Qed.

End Footprints.

(** ** The cut of a call is faithful to the method *)

Section Cut.

Lemma alone_incrementTicketNumber (q : string) (s : Storage) :
  Interleaving.alone Interleaving.incrementTicketNumber q s
  = QueueRepository.incrementTicketNumber inMemory q s.
Proof.
  destruct q as [|c q]; [reflexivity|].
  unfold Interleaving.alone, QueueRepository.incrementTicketNumber, await.
  cbn [Interleaving.begin Interleaving.incrementTicketNumber truthy negb].
  rewrite getCurrentTicketNumber_inMemory by done.
  reflexivity.
Qed.

Lemma alone_getTicket (q : string) (s : Storage) :
  Interleaving.alone Interleaving.getTicket q s
  = QueueService.getTicket inMemory q s.
Proof.
  destruct q as [|c q]; [reflexivity|].
  unfold Interleaving.alone, QueueService.getTicket, tryCatch, await.
  cbn [Interleaving.begin Interleaving.getTicket].
  rewrite getCurrentTicketNumber_inMemory by done.
  reflexivity.
Qed.

End Cut.

(** * The claims *)

Section Claims.

Implicit Types (q a b : string) (s : Storage).

(** C1. The first ticket of a queue that has nothing stored. On the empty
    storage, [QueueService.getTicket] reads [null], computes
    [(null + 1) % 10000 = 1], persists 1 and answers "0001";
    [QueueRepository.incrementTicketNumber] rejects the call and persists
    nothing. Neither answers "0000" nor persists 0. *)
Theorem first_ticket_of_absent_queue :
  QueueService.getTicket inMemory "queue1" ∅
  = (Ok "0001", {[QueueRepository._getQueueKey "queue1" := 1]})
  ∧ QueueRepository.incrementTicketNumber inMemory "queue1" ∅
    = (Throw "Queue queue1 does not exist", ∅).
Proof.
  split.
  - rewrite getTicket_inMemory by done. reflexivity.
  - by rewrite incrementTicketNumber_absent.
Qed.

(** C2. For a queue whose stored counter is [n] with [0 ≤ n ≤ 9999], one
    issue answers [(n + 1) mod 10000] rendered on four digits and persists
    exactly that integer, on [QueueService.getTicket], on
    [QueueRepository.incrementTicketNumber] (which answers the integer) and
    in [Ticket.getNextNumber]; after 9999 the answer is "0000" and 0 is
    persisted. *)
Theorem issue_advances_and_wraps q s n :
  q ≠ "" →
  s !! QueueRepository._getQueueKey q = Some n →
  0 ≤ n ≤ 9999 →
  let next := (n + 1) `mod` 10000 in
  QueueService.getTicket inMemory q s
  = (Ok (fourDigits next), <[QueueRepository._getQueueKey q := next]> s)
  ∧ QueueRepository.incrementTicketNumber inMemory q s
    = (Ok next, <[QueueRepository._getQueueKey q := next]> s)
  ∧ Ticket.getNextNumber (Num n) = Ok next
  ∧ (n = 9999 →
     QueueService.getTicket inMemory q s
     = (Ok "0000", <[QueueRepository._getQueueKey q := 0]> s)).
Proof.
  intros Hq Hs Hn next.
  assert (0 ≤ next ≤ 9999) as Hnext
    by (pose proof (Z.mod_pos_bound (n + 1) 10000); lia).
  assert (QueueService.getTicket inMemory q s
          = (Ok (fourDigits next),
             <[QueueRepository._getQueueKey q := next]> s)) as Hget.
  { rewrite getTicket_inMemory by done. unfold stored. rewrite Hs.
    rewrite advanced_inRange by done. fold next.
    by rewrite formatTicketNumber_inRange. }
  repeat split.
  - exact Hget.
  - erewrite incrementTicketNumber_inMemory by done.
    by rewrite wrapped_inRange.
  - unfold Ticket.getNextNumber, Ticket.MIN_TICKET_NUMBER,
      Ticket.MAX_TICKET_NUMBER. cbn.
    destruct (Z.ltb_spec n 0); [lia|].
    destruct (Z.ltb_spec 9999 n); [lia|]. cbn. f_equal.
    destruct (Z.eqb_spec n 9999) as [->|]; [reflexivity|].
    unfold next. by rewrite Z.mod_small by lia.
  - intros ->. exact Hget.
Qed.

Lemma issue_advances_and_wraps_witness :
  checkoutAt9999 !! QueueRepository._getQueueKey "checkout" = Some 9999
  ∧ QueueService.getTicket inMemory "checkout" checkoutAt9999
    = (Ok "0000",
       <[QueueRepository._getQueueKey "checkout" := 0]> checkoutAt9999).
Proof.
  split; [reflexivity|].
  apply (issue_advances_and_wraps "checkout" checkoutAt9999 9999);
    [discriminate | reflexivity | lia | reflexivity].
Defined.

(** C4. Starting from a storage where every counter lies between 0 and
    9999, every sequence of engine operations (issue, reset and create, of
    the service and of the repository) leaves a storage where every counter
    lies between 0 and 9999. *)
Theorem operations_keep_counters_inRange (ops : list Engine.Operation) s :
  Engine.inRange s → Engine.inRange (Engine.performAll ops s).
Proof.
  revert s. induction ops as [|op ops IH]; intros s Hs; [done|].
  cbn. apply IH. by apply perform_inRange.
Qed.

Lemma operations_keep_counters_inRange_witness :
  Engine.inRange
    (Engine.performAll
       [Engine.CreateQueue "a"; Engine.IncrementTicketNumber "a";
        Engine.GetTicket "b"; Engine.ResetTicketNumber "a";
        Engine.ResetQueue "b"; Engine.GetTicket "a"] ∅).
Proof.
  apply operations_keep_counters_inRange.
  intros k v Hk. rewrite lookup_empty in Hk. discriminate.
Defined.

(** C5. Formatting outside the range of the counter. On 10000
    [QueueService.formatTicketNumber] answers the five characters "10000"
    and on -1 it answers "00-1", where reduction modulo 10000 gives "0000"
    and "9999"; [Ticket.formatNumber] throws on 10000. *)
Theorem formatting_outside_the_range :
  QueueService.formatTicketNumber (Num 10000) = Ok "10000"
  ∧ formatNumber_spec 10000 = "0000"
  ∧ QueueService.formatTicketNumber (Num (-1)) = Ok "00-1"
  ∧ formatNumber_spec (-1) = "9999"
  ∧ Ticket.formatNumber (Num 10000)
    = Throw "Invalid ticket number: 10000. Must be between 0 and 9999".
Proof. repeat split; reflexivity. Qed.

(** C6. The status of a queue that has nothing stored.
    [QueueService.getQueueStatus] never writes to the storage; on a queue
    with no stored value it reads [null], fails to format it and rejects
    the call instead of answering "0000". *)
Theorem status_of_absent_queue :
  (∀ q s, snd (QueueService.getQueueStatus inMemory q s) = s)
  ∧ QueueService.getQueueStatus inMemory "other" ∅
    = (Throw "Failed to get status for queue other", ∅).
Proof.
  split; [|reflexivity].
  intros q s. destruct q as [|c q]; [reflexivity|].
  unfold QueueService.getQueueStatus, tryCatch, await.
  rewrite getCurrentTicketNumber_inMemory by done.
  unfold stored. by destruct (s !! _).
Qed.

(** C7 (as amended). For every non-empty queue identifier and every prior
    storage, the queue absent or not, a reset followed by one issue answers
    "0001": the reset persists 0 and the issue advances it, so 1 is
    persisted; on the repository, [resetTicketNumber] followed by
    [incrementTicketNumber] answers 1. *)
Theorem issue_after_reset q s :
  q ≠ "" →
  (let! _ := QueueService.resetQueue inMemory q in
   QueueService.getTicket inMemory q) s
  = (Ok "0001", <[QueueRepository._getQueueKey q := 1]> s)
  ∧ (let! _ := QueueRepository.resetTicketNumber inMemory q in
     QueueRepository.incrementTicketNumber inMemory q) s
    = (Ok 1, <[QueueRepository._getQueueKey q := 1]> s).
Proof.
  intros Hq. split.
  - unfold await. rewrite resetQueue_inMemory.
    rewrite getTicket_inMemory by done. unfold stored.
    rewrite lookup_insert_eq. rewrite insert_insert_eq. reflexivity.
  - unfold await. rewrite resetTicketNumber_inMemory by done.
    erewrite incrementTicketNumber_inMemory
      by (done || apply lookup_insert_eq).
    rewrite insert_insert_eq. reflexivity.
Qed.

Lemma issue_after_reset_witness :
  "checkout" ≠ ""
  ∧ (let! _ := QueueService.resetQueue inMemory "checkout" in
     QueueService.getTicket inMemory "checkout") checkoutAt9999
    = (Ok "0001",
       <[QueueRepository._getQueueKey "checkout" := 1]> checkoutAt9999).
Proof.
  split; [discriminate|].
  apply (issue_after_reset "checkout" checkoutAt9999). discriminate.
Defined.

(** C7 as stated fails: on the empty storage, a reset followed by one
    issue for the queue "checkout" does not answer "0000", and on the
    repository it does not answer 0. *)
Lemma issue_after_reset_is_not_0000 :
  fst ((let! _ := QueueService.resetQueue inMemory "checkout" in
        QueueService.getTicket inMemory "checkout") ∅)
  ≠ Ok "0000"
  ∧ fst ((let! _ := QueueRepository.resetTicketNumber inMemory "checkout" in
          QueueRepository.incrementTicketNumber inMemory "checkout") ∅)
    ≠ Ok 0.
Proof.
  split.
  - unfold await. rewrite resetQueue_inMemory.
    rewrite getTicket_inMemory by done. unfold stored.
    rewrite lookup_insert_eq. cbn. discriminate.
  - unfold await. rewrite resetTicketNumber_inMemory by done.
    erewrite incrementTicketNumber_inMemory
      by (done || apply lookup_insert_eq).
    cbn. discriminate.
Qed.

(** C3. Two callers of the issue path for one queue, interleaved at the
    [await] between the read and the write: both read the stored 0, both
    persist 1 and both are answered the same number, on
    [QueueRepository.incrementTicketNumber] and on
    [QueueService.getTicket]. The read-modify-write is not atomic. *)
Theorem interleaved_issues_collide :
  Interleaving.run Interleaving.incrementTicketNumber [0; 1; 0; 1]%nat
    ([Interleaving.Started "q"; Interleaving.Started "q"],
     {[QueueRepository._getQueueKey "q" := 0]})
  = ([Interleaving.Settled (Ok 1); Interleaving.Settled (Ok 1)],
     {[QueueRepository._getQueueKey "q" := 1]})
  ∧ Interleaving.run Interleaving.getTicket [0; 1; 0; 1]%nat
      ([Interleaving.Started "q"; Interleaving.Started "q"],
       {[QueueRepository._getQueueKey "q" := 0]})
    = ([Interleaving.Settled (Ok "0001"); Interleaving.Settled (Ok "0001")],
       {[QueueRepository._getQueueKey "q" := 1]}).
Proof. split; vm_compute; reflexivity. Qed.

(** C8. The key of a queue is an injective function of its identifier, and
    for two distinct queues [a] and [b] an issue for [a] neither writes the
    counter of [b] nor depends on it, on [QueueService.getTicket] and on
    [QueueRepository.incrementTicketNumber]. *)
Theorem queues_are_independent a b s :
  a ≠ b →
  QueueRepository._getQueueKey a ≠ QueueRepository._getQueueKey b
  ∧ snd (QueueService.getTicket inMemory a s)
      !! QueueRepository._getQueueKey b
    = s !! QueueRepository._getQueueKey b
  ∧ snd (QueueRepository.incrementTicketNumber inMemory a s)
      !! QueueRepository._getQueueKey b
    = s !! QueueRepository._getQueueKey b
  ∧ (∀ v,
       fst (QueueService.getTicket inMemory a
              (<[QueueRepository._getQueueKey b := v]> s))
       = fst (QueueService.getTicket inMemory a s))
  ∧ (∀ v,
       fst (QueueRepository.incrementTicketNumber inMemory a
              (<[QueueRepository._getQueueKey b := v]> s))
       = fst (QueueRepository.incrementTicketNumber inMemory a s)).
Proof.
  intros Hab.
  assert (QueueRepository._getQueueKey a ≠ QueueRepository._getQueueKey b)
    as Hkey by (intros H; by apply _getQueueKey_inj in H).
  assert (∀ v, stored a (<[QueueRepository._getQueueKey b := v]> s)
               = stored a s) as Hstored.
  { intros v. unfold stored. by rewrite lookup_insert_ne. }
  repeat split.
  - exact Hkey.
  - rewrite getTicket_storage. destruct (truthy a); [|done].
    by rewrite lookup_insert_ne.
  - rewrite incrementTicketNumber_storage. destruct (truthy a); [|done].
    destruct (s !! QueueRepository._getQueueKey a); [|done].
    by rewrite lookup_insert_ne.
  - intros v. destruct a as [|c a]; [reflexivity|].
    rewrite !getTicket_inMemory by done. cbn [fst]. by rewrite Hstored.
  - intros v. destruct a as [|c a]; [reflexivity|].
    destruct (s !! QueueRepository._getQueueKey (String c a)) as [n|] eqn:Hn.
    + erewrite !incrementTicketNumber_inMemory;
        [reflexivity | done | exact Hn | done |].
      by rewrite lookup_insert_ne.
    + rewrite !incrementTicketNumber_absent; [reflexivity | done.. |].
      by rewrite lookup_insert_ne.
Qed.

Lemma queues_are_independent_witness :
  "a" ≠ "b"
  ∧ snd (QueueService.getTicket inMemory "a" ∅)
      !! QueueRepository._getQueueKey "b"
    = (∅ : Storage) !! QueueRepository._getQueueKey "b".
Proof.
  split; [discriminate|].
  apply (queues_are_independent "a" "b" ∅). discriminate.
Defined.

(** C9. For a counter [n] with [0 ≤ n ≤ 9999] and a non-empty queue
    identifier, [Ticket.getNextNumber] answers a number between 0 and 9999
    that the constructor does not reject, and [Ticket.createNext] returns
    the ticket of that number. *)
Theorem createNext_never_rejected q n (now : Z) :
  q ≠ "" →
  0 ≤ n ≤ 9999 →
  ∃ next,
    Ticket.getNextNumber (Num n) = Ok next
    ∧ 0 ≤ next ≤ 9999
    ∧ Ticket.rejected (Num next) = false
    ∧ Ticket.createNext q (Num n) now
      = Ok {| Ticket.queueId := q;
              Ticket.number := next;
              Ticket.formattedNumber := fourDigits next;
              Ticket.createdAt := now |}.
Proof.
  intros Hq Hn.
  exists (if n =? 9999 then 0 else n + 1).
  assert (0 ≤ (if n =? 9999 then 0 else n + 1) ≤ 9999) as Hnext
    by (destruct (Z.eqb_spec n 9999); lia).
  assert (Ticket.getNextNumber (Num n)
          = Ok (if n =? 9999 then 0 else n + 1)) as Hget.
  { unfold Ticket.getNextNumber, Ticket.MIN_TICKET_NUMBER,
      Ticket.MAX_TICKET_NUMBER. cbn.
    destruct (Z.ltb_spec n 0); [lia|].
    by destruct (Z.ltb_spec 9999 n); [lia|]. }
  assert (Ticket.rejected (Num (if n =? 9999 then 0 else n + 1)) = false)
    as Hrej.
  { unfold Ticket.rejected, Ticket.MIN_TICKET_NUMBER,
      Ticket.MAX_TICKET_NUMBER. cbn.
    destruct (Z.ltb_spec (if n =? 9999 then 0 else n + 1) 0); [lia|].
    by destruct (Z.ltb_spec 9999 (if n =? 9999 then 0 else n + 1)); [lia|]. }
  repeat split; [done | lia | lia | done |].
  unfold Ticket.createNext. rewrite Hget. unfold Ticket.new.
  rewrite truthy_nonempty by done. rewrite Hrej. cbn [negb].
  by rewrite formatNumber_inRange.
Qed.

Lemma createNext_never_rejected_witness :
  0 ≤ 9999 ≤ 9999
  ∧ ∃ next,
      Ticket.getNextNumber (Num 9999) = Ok next
      ∧ 0 ≤ next ≤ 9999
      ∧ Ticket.rejected (Num next) = false
      ∧ Ticket.createNext "checkout" (Num 9999) 0
        = Ok {| Ticket.queueId := "checkout";
                Ticket.number := next;
                Ticket.formattedNumber := fourDigits next;
                Ticket.createdAt := 0 |}.
Proof.
  split; [lia|].
  apply (createNext_never_rejected "checkout" 9999 0); [discriminate | lia].
Defined.



End Claims.

(** * Further properties of the code *)

(** ** InMemoryStorageAdapter *)

Section InMemoryAdapter.

Implicit Types (key other : string) (value : Z) (storage : Storage).

(** X1. What [set] stored is what [get] answers for that key, whatever was
    there before, and every other key answers as it did. *)
Theorem get_after_set key other value storage :
  (let! _ := InMemoryStorageAdapter.set key value in
   InMemoryStorageAdapter.get key) storage
  = (Ok (Num value), <[key := value]> storage)
  ∧ (other ≠ key →
     fst ((let! _ := InMemoryStorageAdapter.set key value in
           InMemoryStorageAdapter.get other) storage)
     = fst (InMemoryStorageAdapter.get other storage)).
Proof.
  split.
  - unfold await, InMemoryStorageAdapter.set, InMemoryStorageAdapter.get.
    by rewrite lookup_insert_eq.
  - intros Hne.
    unfold await, InMemoryStorageAdapter.set, InMemoryStorageAdapter.get.
    cbn. by rewrite lookup_insert_ne.
Qed.

(** X2. [delete] answers [true] exactly when the key held a value; after
    it [get] answers [null] for the key and a second [delete] answers
    [false]; the other keys keep their values. *)
Theorem delete_removes_the_key key other storage :
  (fst (InMemoryStorageAdapter.delete key storage) = Ok true
   ↔ is_Some (storage !! key))
  ∧ (let! _ := InMemoryStorageAdapter.delete key in
     InMemoryStorageAdapter.get key) storage
    = (Ok Null, base.delete key storage)
  ∧ fst ((let! _ := InMemoryStorageAdapter.delete key in
          InMemoryStorageAdapter.delete key) storage)
    = Ok false
  ∧ (other ≠ key →
     fst ((let! _ := InMemoryStorageAdapter.delete key in
           InMemoryStorageAdapter.get other) storage)
     = fst (InMemoryStorageAdapter.get other storage)).
Proof.
  unfold await, InMemoryStorageAdapter.delete, InMemoryStorageAdapter.get.
  cbn. repeat split.
  - intros H. injection H as H. by apply bool_decide_eq_true in H.
  - intros H. f_equal. by apply bool_decide_eq_true.
  - by rewrite lookup_delete_eq.
  - f_equal. apply bool_decide_eq_false. rewrite lookup_delete_eq.
    by intros [? ?].
  - intros Hne. by rewrite lookup_delete_ne.
Qed.

(** X3. After [clear] every key answers [null], and a queue that existed
    can be created again. *)
Theorem clear_forgets_every_queue key (q : string) storage :
  (let! _ := InMemoryStorageAdapter.clear in
   InMemoryStorageAdapter.get key) storage
  = (Ok Null, ∅)
  ∧ (q ≠ "" →
     (let! _ := InMemoryStorageAdapter.clear in
      QueueRepository.createQueue inMemory q) storage
     = (Ok true, {[QueueRepository._getQueueKey q := 0]})).
Proof.
  split; [reflexivity|].
  intros Hq. unfold await, InMemoryStorageAdapter.clear.
  unfold QueueRepository.createQueue, await.
  rewrite truthy_nonempty by done. cbn [negb].
  rewrite getCurrentTicketNumber_inMemory by done.
  unfold stored. rewrite lookup_empty. reflexivity.
Qed.

Lemma clear_forgets_every_queue_witness :
  "checkout" ≠ ""
  ∧ (let! _ := InMemoryStorageAdapter.clear in
     QueueRepository.createQueue inMemory "checkout") checkoutAt9999
    = (Ok true, {[QueueRepository._getQueueKey "checkout" := 0]}).
Proof.
  split; [discriminate|].
  apply (clear_forgets_every_queue "k" "checkout" checkoutAt9999).
  discriminate.
Defined.

Lemma get_after_set_witness :
  "b" ≠ "a"
  ∧ fst ((let! _ := InMemoryStorageAdapter.set "a" 7 in
          InMemoryStorageAdapter.get "b") ∅)
    = fst (InMemoryStorageAdapter.get "b" ∅).
Proof.
  split; [discriminate|].
  apply (get_after_set "a" "b" 7 ∅). discriminate.
Defined.

Lemma delete_removes_the_key_witness :
  "b" ≠ "a"
  ∧ fst ((let! _ := InMemoryStorageAdapter.delete "a" in
          InMemoryStorageAdapter.get "b") {["a" := 1; "b" := 2]})
    = fst (InMemoryStorageAdapter.get "b" {["a" := 1; "b" := 2]}).
Proof.
  split; [discriminate|].
  apply (delete_removes_the_key "a" "b" {["a" := 1; "b" := 2]}).
  discriminate.
Defined.

End InMemoryAdapter.

(** ** QueueRepository *)

Section Repository.

Implicit Types (q : string) (s : Storage) (n : Z).

Lemma cycleFrom_succ n (k : nat) :
  cycleFrom n (Datatypes.S k)
  = (n + 1) `mod` 10000 :: cycleFrom ((n + 1) `mod` 10000) k.
Proof.
  unfold cycleFrom. cbn [seq map]. f_equal.
  rewrite <- seq_shift, map_map. apply map_ext. intros i.
  rewrite Zplus_mod_idemp_l. f_equal. lia.
Qed.

Lemma cycleFrom_length n (k : nat) : length (cycleFrom n k) = k.
Proof. unfold cycleFrom. by rewrite length_map, length_seq. Qed.

(** X4. A call with the empty queue identifier is rejected by every
    method of the repository with "Queue ID is required", before the
    storage adapter is used, whatever the adapter is. *)
Theorem empty_queueId_is_rejected {S : Type} (adapter : StorageAdapter S)
    (state : S) :
  QueueRepository.getCurrentTicketNumber adapter "" state
  = (Throw "Queue ID is required", state)
  ∧ QueueRepository.incrementTicketNumber adapter "" state
    = (Throw "Queue ID is required", state)
  ∧ QueueRepository.resetTicketNumber adapter "" state
    = (Throw "Queue ID is required", state)
  ∧ QueueRepository.createQueue adapter "" state
    = (Throw "Queue ID is required", state).
Proof. repeat split. Qed.

(** X5. [createQueue] creates a queue once: on a queue with nothing stored
    it persists 0 and answers [true]; on a queue that has a counter it
    rejects with "already exists" and leaves the storage as it is, so the
    second of two creations fails and an existing counter is never reset
    by it. *)
Theorem createQueue_creates_once q s :
  q ≠ "" →
  (s !! QueueRepository._getQueueKey q = None →
   QueueRepository.createQueue inMemory q s
   = (Ok true, <[QueueRepository._getQueueKey q := 0]> s))
  ∧ (is_Some (s !! QueueRepository._getQueueKey q) →
     QueueRepository.createQueue inMemory q s
     = (Throw ("Queue " +:+ q +:+ " already exists"), s))
  ∧ fst ((let! _ := QueueRepository.createQueue inMemory q in
          QueueRepository.createQueue inMemory q) s)
    = Throw ("Queue " +:+ q +:+ " already exists").
Proof.
  intros Hq.
  assert (∀ s', QueueRepository.createQueue inMemory q s'
                = match s' !! QueueRepository._getQueueKey q with
                  | None =>
                      (Ok true, <[QueueRepository._getQueueKey q := 0]> s')
                  | Some _ =>
                      (Throw ("Queue " +:+ q +:+ " already exists"), s')
                  end) as Hcreate.
  { intros s'. unfold QueueRepository.createQueue, await.
    rewrite truthy_nonempty by done. cbn [negb].
    rewrite getCurrentTicketNumber_inMemory by done. unfold stored.
    by destruct (s' !! _). }
  repeat split.
  - intros Habsent. by rewrite Hcreate, Habsent.
  - intros [v Hv]. by rewrite Hcreate, Hv.
  - unfold await. rewrite (Hcreate s).
    destruct (s !! QueueRepository._getQueueKey q) eqn:Hs; [done|].
    by rewrite Hcreate, lookup_insert_eq.
Qed.

Lemma createQueue_creates_once_witness :
  "checkout" ≠ ""
  ∧ fst ((let! _ := QueueRepository.createQueue inMemory "checkout" in
          QueueRepository.createQueue inMemory "checkout") ∅)
    = Throw ("Queue " +:+ "checkout" +:+ " already exists").
Proof.
  split; [discriminate|].
  apply (createQueue_creates_once "checkout" ∅). discriminate.
Defined.

(** X6. From a stored counter [n] between 0 and 9999, [k] calls of
    [incrementTicketNumber] one after the other answer
    [(n + 1) mod 10000], ..., [(n + k) mod 10000] and leave
    [(n + k) mod 10000] stored: none is rejected, no number is skipped and
    the cycle has length 10000. *)
Theorem incrementTicketNumber_k_times q s n (k : nat) :
  q ≠ "" →
  s !! QueueRepository._getQueueKey q = Some n →
  0 ≤ n ≤ 9999 →
  times k (QueueRepository.incrementTicketNumber inMemory q) s
  = (Ok (cycleFrom n k),
     <[QueueRepository._getQueueKey q := (n + Z.of_nat k) `mod` 10000]> s).
Proof.
  intros Hq. revert s n.
  induction k as [|k IH]; intros s n Hs Hn.
  - cbn [times]. unfold resolve, cycleFrom. cbn [seq map].
    rewrite Z.add_0_r, Z.mod_small by lia. by rewrite insert_id.
  - cbn [times]. unfold await at 1.
    erewrite incrementTicketNumber_inMemory by done.
    rewrite wrapped_inRange by done.
    unfold await at 1.
    rewrite (IH _ ((n + 1) `mod` 10000));
      [| apply lookup_insert_eq
       | pose proof (Z.mod_pos_bound (n + 1) 10000); lia].
    unfold resolve. rewrite cycleFrom_succ, insert_insert_eq.
    rewrite Zplus_mod_idemp_l. do 3 f_equal. lia.
Qed.

Lemma incrementTicketNumber_k_times_witness :
  checkoutAt9999 !! QueueRepository._getQueueKey "checkout" = Some 9999
  ∧ times 3 (QueueRepository.incrementTicketNumber inMemory "checkout")
      checkoutAt9999
    = (Ok [0; 1; 2],
       <[QueueRepository._getQueueKey "checkout" := 2]> checkoutAt9999).
Proof.
  split; [reflexivity|].
  apply (incrementTicketNumber_k_times "checkout" checkoutAt9999 9999 3);
    [discriminate | reflexivity | lia].
Defined.

(** X7. Whatever safe integer is stored, [incrementTicketNumber] never
    answers a number above 9999: a stored value of 9999 or more goes to 0,
    any other goes up by one, so a negative stored value is not brought
    back into the range; the number it answers is the number it stored. *)
Theorem incrementTicketNumber_on_any_stored_value q s n :
  q ≠ "" →
  s !! QueueRepository._getQueueKey q = Some n →
  safeInteger n →
  ∃ next,
    QueueRepository.incrementTicketNumber inMemory q s
    = (Ok next, <[QueueRepository._getQueueKey q := next]> s)
    ∧ next ≤ 9999
    ∧ (9999 ≤ n → next = 0)
    ∧ (n < 9999 → next = n + 1).
Proof.
  intros Hq Hs _. exists (if 9999 <? n + 1 then 0 else n + 1).
  split; [by erewrite incrementTicketNumber_inMemory|].
  destruct (Z.ltb_spec 9999 (n + 1)); lia.
Qed.

Lemma incrementTicketNumber_on_any_stored_value_witness :
  ({[QueueRepository._getQueueKey "a" := -5]} : Storage)
    !! QueueRepository._getQueueKey "a" = Some (-5)
  ∧ safeInteger (-5)
  ∧ ∃ next,
      QueueRepository.incrementTicketNumber inMemory "a"
        {[QueueRepository._getQueueKey "a" := -5]}
      = (Ok next,
         <[QueueRepository._getQueueKey "a" := next]>
           {[QueueRepository._getQueueKey "a" := -5]})
      ∧ next ≤ 9999
      ∧ (9999 ≤ -5 → next = 0)
      ∧ (-5 < 9999 → next = -5 + 1).
Proof.
  split; [reflexivity|]. split; [unfold safeInteger; lia|].
  apply (incrementTicketNumber_on_any_stored_value "a"
           {[QueueRepository._getQueueKey "a" := -5]} (-5));
    [discriminate | reflexivity | unfold safeInteger; lia].
Defined.

(** X8. [resetTicketNumber] acts as create-or-reset: whatever was stored,
    afterwards the counter reads 0, [createQueue] is rejected because the
    queue exists, and a second reset changes nothing. *)
Theorem resetTicketNumber_creates_or_resets q s :
  q ≠ "" →
  (let! _ := QueueRepository.resetTicketNumber inMemory q in
   QueueRepository.getCurrentTicketNumber inMemory q) s
  = (Ok (Num 0), <[QueueRepository._getQueueKey q := 0]> s)
  ∧ (let! _ := QueueRepository.resetTicketNumber inMemory q in
     QueueRepository.createQueue inMemory q) s
    = (Throw ("Queue " +:+ q +:+ " already exists"),
       <[QueueRepository._getQueueKey q := 0]> s)
  ∧ (let! _ := QueueRepository.resetTicketNumber inMemory q in
     QueueRepository.resetTicketNumber inMemory q) s
    = QueueRepository.resetTicketNumber inMemory q s.
Proof.
  intros Hq. unfold await.
  rewrite !resetTicketNumber_inMemory by done. cbv beta iota.
  repeat split.
  - rewrite getCurrentTicketNumber_inMemory by done.
    unfold stored. by rewrite lookup_insert_eq.
  - unfold QueueRepository.createQueue, await.
    rewrite truthy_nonempty by done. cbn [negb].
    rewrite getCurrentTicketNumber_inMemory by done.
    unfold stored. by rewrite lookup_insert_eq.
  - by rewrite insert_insert_eq.
Qed.

Lemma resetTicketNumber_creates_or_resets_witness :
  "checkout" ≠ ""
  ∧ (let! _ := QueueRepository.resetTicketNumber inMemory "checkout" in
     QueueRepository.getCurrentTicketNumber inMemory "checkout")
      checkoutAt9999
    = (Ok (Num 0),
       <[QueueRepository._getQueueKey "checkout" := 0]> checkoutAt9999).
Proof.
  split; [discriminate|].
  apply (resetTicketNumber_creates_or_resets "checkout" checkoutAt9999).
  discriminate.
Defined.

(** X9. [getCurrentTicketNumber] never writes: for every queue identifier,
    empty or not, and every storage, the queue stored or not, the storage
    after the call is the storage before it. It reads the last number
    issued: after a successful [incrementTicketNumber] on a stored safe
    integer it answers the number that call answered. *)
Theorem getCurrentTicketNumber_reads_the_last_issue q s :
  snd (QueueRepository.getCurrentTicketNumber inMemory q s) = s
  ∧ (∀ n,
       q ≠ "" →
       s !! QueueRepository._getQueueKey q = Some n →
       safeInteger n →
       ∃ next s',
         QueueRepository.incrementTicketNumber inMemory q s = (Ok next, s')
         ∧ QueueRepository.getCurrentTicketNumber inMemory q s'
           = (Ok (Num next), s')).
Proof.
  split.
  - destruct q as [|c q]; [reflexivity|].
    by rewrite getCurrentTicketNumber_inMemory.
  - intros n Hq Hs _. eexists _, _. split.
    + by erewrite incrementTicketNumber_inMemory.
    + rewrite getCurrentTicketNumber_inMemory by done.
      unfold stored. by rewrite lookup_insert_eq.
Qed.

Lemma getCurrentTicketNumber_reads_the_last_issue_witness :
  "checkout" ≠ ""
  ∧ checkoutAt9999 !! QueueRepository._getQueueKey "checkout" = Some 9999
  ∧ safeInteger 9999
  ∧ ∃ next s',
      QueueRepository.incrementTicketNumber inMemory "checkout"
        checkoutAt9999 = (Ok next, s')
      ∧ QueueRepository.getCurrentTicketNumber inMemory "checkout" s'
        = (Ok (Num next), s').
Proof.
  split; [discriminate|]. split; [reflexivity|].
  split; [unfold safeInteger; lia|].
  apply (proj2 (getCurrentTicketNumber_reads_the_last_issue "checkout"
                  checkoutAt9999) 9999);
    [discriminate | reflexivity | unfold safeInteger; lia].
Defined.

End Repository.

(** ** QueueService *)

Section Service.

Implicit Types (q : string) (s : Storage) (n : Z).

Lemma length_append (a b : string) :
  String.length (a +:+ b) = (String.length a + String.length b)%nat.
Proof.
  induction a as [|c a IH]; [done|].
  change (String c a +:+ b) with (String c (a +:+ b)).
  cbn. by rewrite IH.
Qed.

Lemma length_repeat (c : ascii) (k : nat) : String.length (Js.repeat c k) = k.
Proof. induction k as [|k IH]; [done|]. cbn. by rewrite IH. Qed.

Lemma getQueueStatus_inMemory q s :
  q ≠ "" →
  QueueService.getQueueStatus inMemory q s
  = (match QueueService.formatTicketNumber (stored q s) with
     | Ok formatted =>
         Ok {| QueueService.queueId := q;
               QueueService.currentTicket := formatted;
               QueueService.ticketCount := stored q s |}
     | Throw _ => Throw ("Failed to get status for queue " +:+ q)
     end, s).
Proof.
  intros Hq. unfold QueueService.getQueueStatus, tryCatch, await.
  rewrite getCurrentTicketNumber_inMemory by done. unfold call.
  by destruct (QueueService.formatTicketNumber (stored q s)).
Qed.

(** X10. The status of a queue whose stored counter is [n] between 0 and
    9999: the call resolves with the queue identifier, [n] on four digits
    as the current ticket and [n] as the ticket count, and the storage is
    left as it was. *)
Theorem getQueueStatus_of_a_stored_queue q s n :
  q ≠ "" →
  s !! QueueRepository._getQueueKey q = Some n →
  0 ≤ n ≤ 9999 →
  QueueService.getQueueStatus inMemory q s
  = (Ok {| QueueService.queueId := q;
           QueueService.currentTicket := fourDigits n;
           QueueService.ticketCount := Num n |},
     s).
Proof.
  intros Hq Hs Hn. rewrite getQueueStatus_inMemory by done.
  unfold stored. rewrite Hs. by rewrite formatTicketNumber_inRange.
Qed.

Lemma getQueueStatus_of_a_stored_queue_witness :
  checkoutAt9999 !! QueueRepository._getQueueKey "checkout" = Some 9999
  ∧ QueueService.getQueueStatus inMemory "checkout" checkoutAt9999
    = (Ok {| QueueService.queueId := "checkout";
             QueueService.currentTicket := fourDigits 9999;
             QueueService.ticketCount := Num 9999 |},
       checkoutAt9999).
Proof.
  split; [reflexivity|].
  apply (getQueueStatus_of_a_stored_queue "checkout" checkoutAt9999 9999);
    [discriminate | reflexivity | lia].
Defined.

(** X11. Whatever the storage adapter is and however the call fails, the
    only error [getQueueStatus] lets out is "Failed to get status for
    queue" followed by the identifier: the message of the repository or of
    the adapter never reaches the caller. *)
Theorem getQueueStatus_hides_the_cause {S : Type}
    (adapter : StorageAdapter S) q (state : S) (message : string) :
  fst (QueueService.getQueueStatus adapter q state) = Throw message →
  message = "Failed to get status for queue " +:+ q.
Proof.
  unfold QueueService.getQueueStatus, tryCatch.
  destruct (await _ _ state) as [[status|e] state']; cbn; [done|].
  by intros [= <-].
Qed.

Lemma getQueueStatus_hides_the_cause_witness :
  fst (QueueService.getQueueStatus inMemory "" ∅)
  = Throw "Failed to get status for queue "
  ∧ "Failed to get status for queue "
    = "Failed to get status for queue " +:+ "".
Proof.
  split; [reflexivity|].
  apply (getQueueStatus_hides_the_cause inMemory "" ∅). reflexivity.
Defined.

(** X12. [formatTicketNumber] answers a string for every safe integer,
    never shorter than four characters and never cut: its length is the
    larger of 4 and the length of the decimal rendering, and a rendering
    of four characters or more is answered as it is. *)
Theorem formatTicketNumber_never_truncates n :
  safeInteger n →
  ∃ formatted,
    QueueService.formatTicketNumber (Num n) = Ok formatted
    ∧ String.length formatted = Nat.max 4 (String.length (toString n))
    ∧ ((4 ≤ String.length (toString n))%nat → formatted = toString n).
Proof.
  intros _. eexists. split; [reflexivity|]. unfold padStart. split.
  - rewrite length_append, length_repeat. lia.
  - intros Hlen.
    by replace (4 - String.length (toString n))%nat with 0%nat by lia.
Qed.

Lemma formatTicketNumber_never_truncates_witness :
  safeInteger 123456
  ∧ ∃ formatted,
      QueueService.formatTicketNumber (Num 123456) = Ok formatted
      ∧ String.length formatted
        = Nat.max 4 (String.length (toString 123456))
      ∧ ((4 ≤ String.length (toString 123456))%nat →
         formatted = toString 123456).
Proof.
  split; [unfold safeInteger; lia|].
  apply (formatTicketNumber_never_truncates 123456).
  unfold safeInteger. lia.
Defined.

End Service.

(** ** Ticket *)

Section TicketModel.

Implicit Types (q : string) (v : Value) (n : Z).

Lemma rejected_isValidNumber v :
  Ticket.rejected v = negb (Ticket.isValidNumber v).
Proof.
  unfold Ticket.rejected, Ticket.isValidNumber,
    Ticket.MIN_TICKET_NUMBER, Ticket.MAX_TICKET_NUMBER.
  destruct v as [|n]; [reflexivity|]. cbn.
  destruct (Z.ltb_spec n 0), (Z.leb_spec 0 n),
    (Z.ltb_spec 9999 n), (Z.leb_spec n 9999); cbn; lia || reflexivity.
Qed.

Lemma isValidNumber_inRange v :
  Ticket.isValidNumber v = true ↔ ∃ n, v = Num n ∧ 0 ≤ n ≤ 9999.
Proof.
  unfold Ticket.isValidNumber, Ticket.MIN_TICKET_NUMBER,
    Ticket.MAX_TICKET_NUMBER.
  destruct v as [|n]; cbn.
  - split; [done | by intros (n & ? & _)].
  - rewrite andb_true_iff, Z.leb_le, Z.leb_le. split.
    + intros ?. by exists n.
    + by intros (m & [= <-] & ?).
Qed.

Lemma getNextNumber_inRange n :
  0 ≤ n ≤ 9999 → Ticket.getNextNumber (Num n) = Ok ((n + 1) `mod` 10000).
Proof.
  intros Hn. unfold Ticket.getNextNumber, Ticket.MIN_TICKET_NUMBER,
    Ticket.MAX_TICKET_NUMBER. cbn.
  destruct (Z.ltb_spec n 0); [lia|].
  destruct (Z.ltb_spec 9999 n); [lia|]. cbn. f_equal.
  destruct (Z.eqb_spec n 9999) as [->|]; [reflexivity|].
  by rewrite Z.mod_small by lia.
Qed.

Lemma getNextNumber_invalid v :
  Ticket.isValidNumber v = false →
  ∃ e, Ticket.getNextNumber v = Throw e ∧ e ≠ "Queue ID is required".
Proof.
  intros Hv. unfold Ticket.getNextNumber. destruct v as [|n].
  - by eexists.
  - unfold Ticket.isValidNumber, Ticket.MIN_TICKET_NUMBER,
      Ticket.MAX_TICKET_NUMBER in *. cbn in *.
    destruct (Z.ltb_spec n 0); [by eexists|].
    destruct (Z.ltb_spec 9999 n); [by eexists|].
    destruct (Z.leb_spec 0 n), (Z.leb_spec n 9999); cbn in Hv; done || lia.
Qed.

Lemma new_inRange q n (created : Z) :
  q ≠ "" → 0 ≤ n ≤ 9999 →
  Ticket.new q (Num n) created
  = Ok {| Ticket.queueId := q;
          Ticket.number := n;
          Ticket.formattedNumber := fourDigits n;
          Ticket.createdAt := created |}.
Proof.
  intros Hq Hn. unfold Ticket.new.
  rewrite truthy_nonempty by done. cbn [negb].
  rewrite rejected_isValidNumber.
  assert (Ticket.isValidNumber (Num n) = true) as ->
    by (apply isValidNumber_inRange; by exists n).
  cbn [negb]. by rewrite formatNumber_inRange.
Qed.

Lemma new_Ok_inv q v (created : Z) (ticket : Ticket.t) :
  Ticket.new q v created = Ok ticket →
  q ≠ "" ∧ ∃ n, v = Num n ∧ 0 ≤ n ≤ 9999
            ∧ ticket = {| Ticket.queueId := q;
                          Ticket.number := n;
                          Ticket.formattedNumber := fourDigits n;
                          Ticket.createdAt := created |}.
Proof.
  unfold Ticket.new. destruct q as [|c q]; [done|]. cbn [truthy negb].
  rewrite rejected_isValidNumber.
  destruct (Ticket.isValidNumber v) eqn:Hvalid; [|done]. cbn [negb].
  apply isValidNumber_inRange in Hvalid as (n & -> & Hn).
  rewrite formatNumber_inRange by done. intros [= <-].
  split; [done|]. by exists n.
Qed.

(** X13. On an argument that is [null] or an integer,
    [Ticket.formatNumber] answers a string exactly when the argument is an
    integer between 0 and 9999, and the string is then the number on four
    digits; on [null] and on the integers outside the range it throws.
    These are also the arguments that [Ticket.isValidNumber] accepts. *)
Theorem formatNumber_accepts_valid_numbers v (formatted : string) :
  (Ticket.formatNumber v = Ok formatted
   ↔ ∃ n, v = Num n ∧ 0 ≤ n ≤ 9999 ∧ formatted = fourDigits n)
  ∧ (Ticket.isValidNumber v = true ↔ ∃ n, v = Num n ∧ 0 ≤ n ≤ 9999).
Proof.
  split; [|apply isValidNumber_inRange]. split.
  - intros H. unfold Ticket.formatNumber in H.
    rewrite rejected_isValidNumber in H.
    destruct (Ticket.isValidNumber v) eqn:Hvalid; [|done].
    apply isValidNumber_inRange in Hvalid as (n & -> & Hn).
    exists n. repeat split; [lia..|].
    cbn in H. rewrite padStart_fourDigits in H by done. by injection H.
  - intros (n & -> & Hn & ->). by apply formatNumber_inRange.
Qed.

(** X14. On a number argument that is [null] or an integer,
    [new Ticket(queueId, number, createdAt)] returns a ticket exactly when
    the queue identifier is not empty and the number is an integer between
    0 and 9999; the ticket then carries the arguments and the number on
    four digits. *)
Theorem new_ticket_accepts_valid_arguments q v (created : Z)
    (ticket : Ticket.t) :
  Ticket.new q v created = Ok ticket
  ↔ q ≠ ""
    ∧ ∃ n, v = Num n ∧ 0 ≤ n ≤ 9999
           ∧ ticket = {| Ticket.queueId := q;
                         Ticket.number := n;
                         Ticket.formattedNumber := fourDigits n;
                         Ticket.createdAt := created |}.
Proof.
  split; [apply new_Ok_inv|].
  intros (Hq & n & -> & Hn & ->). by apply new_inRange.
Qed.

(** X15. [Ticket.getNextNumber] walks a cycle of length 10000: applied [k]
    times from a number [n] between 0 and 9999 it never throws and answers
    [(n + k) mod 10000], so 10000 applications give [n] back. *)
Theorem getNextNumber_k_times n (k : nat) :
  0 ≤ n ≤ 9999 →
  nextNumberTimes k n = Ok ((n + Z.of_nat k) `mod` 10000)
  ∧ nextNumberTimes (Z.to_nat 10000) n = Ok n.
Proof.
  assert (∀ j m, 0 ≤ m ≤ 9999 →
            nextNumberTimes j m = Ok ((m + Z.of_nat j) `mod` 10000))
    as Hcycle.
  { induction j as [|j IH]; intros m Hm.
    - cbn. by rewrite Z.add_0_r, Z.mod_small by lia.
    - cbn [nextNumberTimes].
      rewrite getNextNumber_inRange by done.
      rewrite IH by (pose proof (Z.mod_pos_bound (m + 1) 10000); lia).
      rewrite Zplus_mod_idemp_l. do 2 f_equal. lia. }
  intros Hn. split; [by apply Hcycle|].
  rewrite Hcycle by done. rewrite Z2Nat.id by lia. f_equal.
  rewrite <- (Z.mul_1_l 10000) at 1.
  rewrite Z.mod_add by lia. by rewrite Z.mod_small by lia.
Qed.

Lemma getNextNumber_k_times_witness :
  0 ≤ 9998 ≤ 9999
  ∧ nextNumberTimes 3 9998 = Ok ((9998 + Z.of_nat 3) `mod` 10000).
Proof.
  split; [lia|].
  apply (getNextNumber_k_times 9998 3). lia.
Defined.

(** X16. [Ticket.getNextNumber] throws instead of advancing when its
    argument is [null] or lies outside 0..9999; on 0..9999 the three ways
    of advancing a counter (the conditional of [Ticket.getNextNumber], the
    comparison of [incrementTicketNumber] and the remainder of
    [getTicket]) give the same number. *)
Theorem three_ways_to_advance n :
  Ticket.getNextNumber Null = Throw "Current number must be a number"
  ∧ (¬ 0 ≤ n ≤ 9999 →
     Ticket.getNextNumber (Num n)
     = Throw "Current number must be between 0 and 9999")
  ∧ (0 ≤ n ≤ 9999 →
     Ticket.getNextNumber (Num n) = Ok (advanced (Num n))
     ∧ (if QueueRepository.MAX_TICKET_NUMBER <? n + 1 then 0 else n + 1)
       = advanced (Num n)).
Proof.
  split; [reflexivity|].
  unfold Ticket.getNextNumber, Ticket.MIN_TICKET_NUMBER,
    Ticket.MAX_TICKET_NUMBER, QueueRepository.MAX_TICKET_NUMBER. cbn.
  split.
  - intros Hn.
    destruct (Z.ltb_spec n 0); [reflexivity|].
    destruct (Z.ltb_spec 9999 n); [reflexivity|]. lia.
  - intros Hn. rewrite advanced_inRange, wrapped_inRange by done.
    split; [|reflexivity].
    destruct (Z.ltb_spec n 0); [lia|].
    destruct (Z.ltb_spec 9999 n); [lia|]. cbn. f_equal.
    destruct (Z.eqb_spec n 9999) as [->|]; [reflexivity|].
    by rewrite Z.mod_small by lia.
Qed.

Lemma three_ways_to_advance_witness :
  ¬ 0 ≤ 10000 ≤ 9999
  ∧ Ticket.getNextNumber (Num 10000)
    = Throw "Current number must be between 0 and 9999".
Proof.
  split; [lia|].
  apply (three_ways_to_advance 10000). lia.
Defined.

End TicketModel.

(** ** RedisStorageAdapter *)

Section Redis.

Context {R : Type}.

Implicit Types (client : RedisStorageAdapter.Client R)
  (adapter : RedisStorageAdapter.Adapter R) (key e : string) (r : R).

(** X18. [increment] on a connected adapter, for every client: the
    adapter does not connect again; when INCR resolves, [increment]
    answers the very number the client answered; when INCR fails, the
    error that comes out is "Failed to increment value in Redis: "
    followed by the message of the client. In both cases the adapter
    stays connected and the server is as INCR left it. *)
Theorem increment_reports_client_failures client adapter key r :
  RedisStorageAdapter.isConnected adapter = true →
  RedisStorageAdapter.connect client adapter = (Ok tt, adapter)
  ∧ (∀ newValue,
       RedisStorageAdapter.client_incr client key
         (RedisStorageAdapter.server adapter) = (Ok newValue, r) →
       RedisStorageAdapter.increment client key adapter
       = (Ok newValue,
          {| RedisStorageAdapter.isConnected := true;
             RedisStorageAdapter.server := r |}))
  ∧ (∀ e,
       RedisStorageAdapter.client_incr client key
         (RedisStorageAdapter.server adapter) = (Throw e, r) →
       RedisStorageAdapter.increment client key adapter
       = (Throw ("Failed to increment value in Redis: " +:+ e),
          {| RedisStorageAdapter.isConnected := true;
             RedisStorageAdapter.server := r |})).
Proof.
  destruct adapter as [connected db].
  cbn [RedisStorageAdapter.isConnected RedisStorageAdapter.server].
  intros ->. repeat split.
  - intros newValue Hincr.
    unfold RedisStorageAdapter.increment, tryCatch, await,
      RedisStorageAdapter.connect, RedisStorageAdapter.incr.
    cbn. by rewrite Hincr.
  - intros e Hincr.
    unfold RedisStorageAdapter.increment, tryCatch, await,
      RedisStorageAdapter.connect, RedisStorageAdapter.incr.
    cbn. by rewrite Hincr.
Qed.

End Redis.

Lemma increment_reports_client_failures_witness :
  RedisStorageAdapter.isConnected connectedAt9999 = true
  ∧ RedisStorageAdapter.client_incr
      (failingClient (gmap string Z) "READONLY") "queue:a:ticket"
      (RedisStorageAdapter.server connectedAt9999)
    = (Throw "READONLY", RedisStorageAdapter.server connectedAt9999)
  ∧ RedisStorageAdapter.increment
      (failingClient (gmap string Z) "READONLY") "queue:a:ticket"
      connectedAt9999
    = (Throw ("Failed to increment value in Redis: " +:+ "READONLY"),
       {| RedisStorageAdapter.isConnected := true;
          RedisStorageAdapter.server :=
            RedisStorageAdapter.server connectedAt9999 |}).
Proof.
  split; [reflexivity|]. split; [reflexivity|].
  apply (increment_reports_client_failures
           (failingClient (gmap string Z) "READONLY")
           connectedAt9999 "queue:a:ticket"
           (RedisStorageAdapter.server connectedAt9999));
    reflexivity.
Defined.

(** ** TicketController *)

Section Controller.

Implicit Types (q : string) (s : Storage) (n : Z).

(** X19. The status endpoint on the in-memory storage, through controller,
    service and repository. Without a queue identifier the handler answers
    400 and calls nothing; for a queue whose counter is [n] between 0 and
    9999 it answers 200 with the status; for a queue with nothing stored
    the failure of the service goes to the error handler. The storage is
    never changed. *)
Theorem status_endpoint q s :
  snd (TicketController.getQueueStatus (TicketController.wired inMemory) q s)
  = s
  ∧ (q = "" →
     fst (TicketController.getQueueStatus
            (TicketController.wired inMemory) q s)
     = TicketController.Json 400
         (TicketController.ErrorBody "Queue ID is required"))
  ∧ (q ≠ "" →
     ∀ n, s !! QueueRepository._getQueueKey q = Some n →
          0 ≤ n ≤ 9999 →
          fst (TicketController.getQueueStatus
                 (TicketController.wired inMemory) q s)
          = TicketController.Json 200
              (TicketController.StatusBody
                 {| QueueService.queueId := q;
                    QueueService.currentTicket := fourDigits n;
                    QueueService.ticketCount := Num n |}))
  ∧ (q ≠ "" →
     s !! QueueRepository._getQueueKey q = None →
     fst (TicketController.getQueueStatus
            (TicketController.wired inMemory) q s)
     = TicketController.HandleError
         ("Failed to get status for queue " +:+ q)).
Proof.
  unfold TicketController.getQueueStatus, TicketController.wired.
  cbn [TicketController.service_getQueueStatus].
  repeat split.
  - destruct q as [|c q]; [reflexivity|]. cbn [truthy negb].
    rewrite getQueueStatus_inMemory by done.
    by destruct (QueueService.formatTicketNumber _).
  - by intros ->.
  - intros Hq n Hs Hn. rewrite truthy_nonempty by done. cbn [negb].
    rewrite getQueueStatus_inMemory by done.
    unfold stored. rewrite Hs. by rewrite formatTicketNumber_inRange.
  - intros Hq Hs. rewrite truthy_nonempty by done. cbn [negb].
    rewrite getQueueStatus_inMemory by done.
    unfold stored. by rewrite Hs.
Qed.

Lemma status_endpoint_witness :
  "checkout" ≠ ""
  ∧ checkoutAt9999 !! QueueRepository._getQueueKey "checkout" = Some 9999
  ∧ fst (TicketController.getQueueStatus
           (TicketController.wired inMemory) "checkout" checkoutAt9999)
    = TicketController.Json 200
        (TicketController.StatusBody
           {| QueueService.queueId := "checkout";
              QueueService.currentTicket := fourDigits 9999;
              QueueService.ticketCount := Num 9999 |}).
Proof.
  split; [discriminate|]. split; [reflexivity|].
  apply (status_endpoint "checkout" checkoutAt9999);
    [discriminate | reflexivity | lia].
Defined.

End Controller.

(** ** The engine *)

Section EngineFrame.

Implicit Types (s : Storage).

Lemma perform_keeps_or_inserts (op : Engine.Operation) s :
  Engine.perform op s = s
  ∨ ∃ v, Engine.perform op s
         = <[QueueRepository._getQueueKey (queueOf op) := v]> s.
Proof.
  destruct op as [q|q|q|q|q]; unfold Engine.perform; cbn [queueOf].
  - rewrite getTicket_storage. destruct (truthy q); eauto.
  - rewrite resetQueue_inMemory. eauto.
  - rewrite incrementTicketNumber_storage.
    destruct (truthy q), (s !! QueueRepository._getQueueKey q); eauto.
  - rewrite resetTicketNumber_storage. destruct (truthy q); eauto.
  - rewrite createQueue_storage.
    destruct (truthy q), (s !! QueueRepository._getQueueKey q); eauto.
Qed.

(** X20. No sequence of engine operations removes a counter or touches a
    key that is not the key of a queue: every key stored before is still
    stored after, and a key that is not of the form
    [queue:<queueId>:ticket] keeps its value. *)
Theorem operations_never_remove (ops : list Engine.Operation) s
    (key : string) :
  (is_Some (s !! key) → is_Some (Engine.performAll ops s !! key))
  ∧ ((∀ q, key ≠ QueueRepository._getQueueKey q) →
     Engine.performAll ops s !! key = s !! key).
Proof.
  revert s. induction ops as [|op ops IH]; intros s; [done|].
  cbn [Engine.performAll foldl].
  change (foldl _ ?x ops) with (Engine.performAll ops x).
  destruct (IH (Engine.perform op s)) as [IHsome IHframe].
  destruct (perform_keeps_or_inserts op s) as [Heq | (v & Heq)];
    rewrite Heq in *.
  - done.
  - split.
    + intros Hsome. apply IHsome.
      destruct (decide (QueueRepository._getQueueKey (queueOf op) = key))
        as [<-|Hne].
      * by rewrite lookup_insert_eq.
      * by rewrite lookup_insert_ne.
    + intros Hkey. rewrite IHframe by done.
      by rewrite lookup_insert_ne.
Qed.

Lemma operations_never_remove_witness :
  is_Some (checkoutAt9999 !! QueueRepository._getQueueKey "checkout")
  ∧ is_Some
      (Engine.performAll
         [Engine.IncrementTicketNumber "checkout";
          Engine.ResetTicketNumber "other"; Engine.CreateQueue "checkout"]
         checkoutAt9999 !! QueueRepository._getQueueKey "checkout").
Proof.
  split; [by eexists|].
  apply (operations_never_remove
           [Engine.IncrementTicketNumber "checkout";
            Engine.ResetTicketNumber "other"; Engine.CreateQueue "checkout"]
           checkoutAt9999 (QueueRepository._getQueueKey "checkout")).
  by eexists.
Defined.

(** X21. Independence along a run: a sequence of engine operations none of
    which is called for the queue [b] leaves the counter of [b] as it
    was, stored or not. *)
Theorem operations_on_other_queues (ops : list Engine.Operation) s
    (b : string) :
  Forall (λ op, queueOf op ≠ b) ops →
  Engine.performAll ops s !! QueueRepository._getQueueKey b
  = s !! QueueRepository._getQueueKey b.
Proof.
  revert s. induction ops as [|op ops IH]; intros s Hops; [done|].
  apply Forall_cons in Hops as [Hop Hops].
  cbn [Engine.performAll foldl].
  change (foldl _ ?x ops) with (Engine.performAll ops x).
  rewrite IH by done.
  destruct (perform_keeps_or_inserts op s) as [-> | (v & ->)]; [done|].
  apply lookup_insert_ne. intros Hkey. by apply _getQueueKey_inj in Hkey.
Qed.

Lemma operations_on_other_queues_witness :
  Forall (λ op, queueOf op ≠ "checkout")
    [Engine.CreateQueue "a"; Engine.IncrementTicketNumber "a";
     Engine.ResetTicketNumber "b"]
  ∧ Engine.performAll
      [Engine.CreateQueue "a"; Engine.IncrementTicketNumber "a";
       Engine.ResetTicketNumber "b"] checkoutAt9999
      !! QueueRepository._getQueueKey "checkout"
    = checkoutAt9999 !! QueueRepository._getQueueKey "checkout".
Proof.
  assert (Forall (λ op, queueOf op ≠ "checkout")
            [Engine.CreateQueue "a"; Engine.IncrementTicketNumber "a";
             Engine.ResetTicketNumber "b"]) as Hops
    by (repeat constructor; discriminate).
  split; [exact Hops|].
  apply (operations_on_other_queues
           [Engine.CreateQueue "a"; Engine.IncrementTicketNumber "a";
            Engine.ResetTicketNumber "b"] checkoutAt9999 "checkout" Hops).
Defined.

End EngineFrame.

(** ** Ticket.createNext *)

Section CreateNext.

Implicit Types (q : string) (v : Value).

(** X22. On a current number that is [null] or an integer,
    [Ticket.createNext] returns a ticket exactly when the queue identifier
    is not empty and the current number is an integer between 0 and 9999;
    the ticket then shows the next number of the cycle. The current number
    is checked first: when it is [null] or outside the range, the error is
    the one of the number whatever the identifier is, and never "Queue ID
    is required". *)
Theorem createNext_succeeds_exactly_when q v (now : Z) :
  ((∃ ticket, Ticket.createNext q v now = Ok ticket)
   ↔ q ≠ "" ∧ ∃ n, v = Num n ∧ 0 ≤ n ≤ 9999)
  ∧ (∀ ticket,
       Ticket.createNext q v now = Ok ticket →
       Ticket.number ticket = (toNumber v + 1) `mod` 10000
       ∧ Ticket.formattedNumber ticket
         = fourDigits ((toNumber v + 1) `mod` 10000))
  ∧ ((¬ ∃ n, v = Num n ∧ 0 ≤ n ≤ 9999) →
     Ticket.createNext "" v now = Ticket.createNext q v now
     ∧ Ticket.createNext q v now ≠ Throw "Queue ID is required").
Proof.
  assert (∀ ticket,
            Ticket.createNext q v now = Ok ticket →
            q ≠ "" ∧ Ticket.isValidNumber v = true
            ∧ Ticket.number ticket = (toNumber v + 1) `mod` 10000
            ∧ Ticket.formattedNumber ticket
              = fourDigits ((toNumber v + 1) `mod` 10000)) as Hinv.
  { intros ticket Hcreate. unfold Ticket.createNext in Hcreate.
    destruct (Ticket.isValidNumber v) eqn:Hv.
    - apply isValidNumber_inRange in Hv as (n & -> & Hn).
      rewrite getNextNumber_inRange in Hcreate by done.
      by apply new_Ok_inv in Hcreate as (Hq & m & [= <-] & _ & ->).
    - destruct (getNextNumber_invalid v Hv) as (e & He & _).
      by rewrite He in Hcreate. }
  split; [split|split].
  - intros [ticket Hcreate]. destruct (Hinv _ Hcreate) as (? & Hv & _).
    split; [done|]. by apply isValidNumber_inRange.
  - intros (Hq & n & -> & Hn).
    unfold Ticket.createNext. rewrite getNextNumber_inRange by done.
    eexists. apply new_inRange; [done|].
    pose proof (Z.mod_pos_bound (n + 1) 10000). lia.
  - intros ticket Hcreate. by destruct (Hinv _ Hcreate) as (_ & _ & ? & ?).
  - intros Hv. unfold Ticket.createNext.
    assert (Ticket.isValidNumber v = false) as Hinvalid.
    { destruct (Ticket.isValidNumber v) eqn:Hvalid; [|done].
      by apply isValidNumber_inRange in Hvalid. }
    destruct (getNextNumber_invalid v Hinvalid) as (e & -> & Hne).
    split; [done|]. by intros [= ->].
Qed.

Lemma createNext_succeeds_exactly_when_witness :
  (¬ ∃ n, Num 10000 = Num n ∧ 0 ≤ n ≤ 9999)
  ∧ Ticket.createNext "" (Num 10000) 0
    = Ticket.createNext "checkout" (Num 10000) 0
  ∧ Ticket.createNext "checkout" (Num 10000) 0
    ≠ Throw "Queue ID is required".
Proof.
  assert (¬ ∃ n, Num 10000 = Num n ∧ 0 ≤ n ≤ 9999) as Hout
    by (intros (n & [= <-] & Hn); lia).
  split; [exact Hout|].
  apply (createNext_succeeds_exactly_when "checkout" (Num 10000) 0), Hout.
Defined.

End CreateNext.

(** ** Interleaved calls *)

Section LostUpdate.

Implicit Types (q : string) (s : Storage) (n : Z).

Lemma begin_incrementTicketNumber q s :
  q ≠ "" →
  Interleaving.begin Interleaving.incrementTicketNumber q s
  = Interleaving.Suspended q (stored q s).
Proof.
  intros Hq. cbn [Interleaving.begin Interleaving.incrementTicketNumber].
  rewrite truthy_nonempty by done. cbn [negb].
  by rewrite getCurrentTicketNumber_inMemory.
Qed.

Lemma resume_incrementTicketNumber q s n :
  0 ≤ n ≤ 9999 →
  Interleaving.resume Interleaving.incrementTicketNumber q (Num n) s
  = (Ok ((n + 1) `mod` 10000),
     <[QueueRepository._getQueueKey q := (n + 1) `mod` 10000]> s).
Proof.
  intros Hn. cbn [Interleaving.resume Interleaving.incrementTicketNumber].
  unfold QueueRepository.MAX_TICKET_NUMBER.
  rewrite wrapped_inRange by done. reflexivity.
Qed.

(** X23. Two calls of [incrementTicketNumber] for a queue whose counter is
    [n] between 0 and 9999. Run one after the other they answer
    [(n + 1) mod 10000] and [(n + 2) mod 10000]; when the second call
    starts before the first is resumed, both answer [(n + 1) mod 10000]
    and the counter advances by one only. *)
Theorem interleaved_increments_lose_an_update q s n :
  q ≠ "" →
  s !! QueueRepository._getQueueKey q = Some n →
  0 ≤ n ≤ 9999 →
  Interleaving.run Interleaving.incrementTicketNumber [0; 0; 1; 1]%nat
    ([Interleaving.Started q; Interleaving.Started q], s)
  = ([Interleaving.Settled (Ok ((n + 1) `mod` 10000));
      Interleaving.Settled (Ok ((n + 2) `mod` 10000))],
     <[QueueRepository._getQueueKey q := (n + 2) `mod` 10000]> s)
  ∧ Interleaving.run Interleaving.incrementTicketNumber [0; 1; 0; 1]%nat
      ([Interleaving.Started q; Interleaving.Started q], s)
    = ([Interleaving.Settled (Ok ((n + 1) `mod` 10000));
        Interleaving.Settled (Ok ((n + 1) `mod` 10000))],
       <[QueueRepository._getQueueKey q := (n + 1) `mod` 10000]> s).
Proof.
  intros Hq Hs Hn.
  assert (0 ≤ (n + 1) `mod` 10000 ≤ 9999) as Hnext
    by (pose proof (Z.mod_pos_bound (n + 1) 10000); lia).
  assert (stored q s = Num n) as Hstored by (unfold stored; by rewrite Hs).
  unfold Interleaving.run. cbn [foldl]. split.
  - unfold Interleaving.step at 4. cbn [lookup list_lookup].
    rewrite begin_incrementTicketNumber, Hstored by done.
    cbn [insert list_insert].
    unfold Interleaving.step at 3. cbn [lookup list_lookup].
    rewrite resume_incrementTicketNumber by done. cbn [insert list_insert].
    unfold Interleaving.step at 2. cbn [lookup list_lookup].
    rewrite begin_incrementTicketNumber by done.
    unfold stored at 1. rewrite lookup_insert_eq. cbn [insert list_insert].
    unfold Interleaving.step. cbn [lookup list_lookup].
    rewrite resume_incrementTicketNumber by done. cbn [insert list_insert].
    rewrite insert_insert_eq, Zplus_mod_idemp_l.
    by replace (n + 1 + 1) with (n + 2) by lia.
  - unfold Interleaving.step at 4. cbn [lookup list_lookup].
    rewrite begin_incrementTicketNumber, Hstored by done.
    cbn [insert list_insert].
    unfold Interleaving.step at 3. cbn [lookup list_lookup].
    rewrite begin_incrementTicketNumber, Hstored by done.
    cbn [insert list_insert].
    unfold Interleaving.step at 2. cbn [lookup list_lookup].
    rewrite resume_incrementTicketNumber by done. cbn [insert list_insert].
    unfold Interleaving.step. cbn [lookup list_lookup].
    rewrite resume_incrementTicketNumber by done. cbn [insert list_insert].
    by rewrite insert_insert_eq.
Qed.

Lemma interleaved_increments_lose_an_update_witness :
  checkoutAt9999 !! QueueRepository._getQueueKey "checkout" = Some 9999
  ∧ Interleaving.run Interleaving.incrementTicketNumber [0; 1; 0; 1]%nat
      ([Interleaving.Started "checkout"; Interleaving.Started "checkout"],
       checkoutAt9999)
    = ([Interleaving.Settled (Ok ((9999 + 1) `mod` 10000));
        Interleaving.Settled (Ok ((9999 + 1) `mod` 10000))],
       <[QueueRepository._getQueueKey "checkout" := (9999 + 1) `mod` 10000]>
         checkoutAt9999).
Proof.
  split; [reflexivity|].
  apply (interleaved_increments_lose_an_update "checkout" checkoutAt9999
           9999); [discriminate | reflexivity | lia].
Defined.

End LostUpdate.
